(** * Dashboard client of the webhook trading bot

    A shallow embedding of the browser scripts of the dashboard:

    - the full-refresh log poller ([FullRefresh], first script of the log
      panel: [getLogData], [updateLogs]);
    - the incremental log poller ([Incremental], second script of the log
      panel: [updateLogs], [clearLogs]);
    - [static/js/dashboard.js] ([Dashboard]: [createAction], [showModal],
      [closeModal], [showAlert], [refreshComponents], the table renderers
      and the exchange-settings form).

    The page is an explicit state ([page]): the DOM containers the scripts
    write to, the two script-level variables ([currentModal],
    [lastLogTimestamp]), the console and the list of HTTP requests sent so
    far.  Every server answer is an argument of the function that consumes
    it, so one call of a model function is one request/response cycle.
    What the browser does on its own is a parameter: the locale's date
    format, the HTML parser, the part of the document the scripts do not
    write ([DOM]). *)

From Stdlib Require Import String Ascii List ZArith Bool Lia.
Import ListNotations.
Local Open Scope string_scope.
Set Warnings "-register-all".

(** ** JavaScript values *)

(** The primitive values that flow through the scripts.  Numbers are the
    integral ones (timestamps, status codes); NaN and fractions do not occur
    in the modelled paths. *)
Inductive jsval : Type :=
| JUndefined
| JNull
| JBool (b : bool)
| JNum (z : Z)
| JStr (s : string).

(** ToBoolean, as used by [cond ? a : b], [if (v)] and [a || b]. *)
Definition truthy (v : jsval) : bool :=
  match v with
  | JUndefined | JNull => false
  | JBool b => b
  | JNum z => negb (z =? 0)%Z
  | JStr s => negb (s =? "")
  end.

(** [a || b] on strings: the first operand unless it is the empty string. *)
Definition str_or (a b : string) : string :=
  if (a =? "") then b else a.

(** [hay.includes(needle)]. *)
Fixpoint includes (needle hay : string) : bool :=
  String.prefix needle hay ||
  match hay with
  | EmptyString => false
  | String _ rest => includes needle rest
  end.

(** Pieces of the template literals. *)
Definition dq : string := String (ascii_of_nat 34) EmptyString.
Definition nl : string := String (ascii_of_nat 10) EmptyString.
Definition sq : string := "'".

Fixpoint spaces (n : nat) : string :=
  match n with
  | O => EmptyString
  | S k => String " " (spaces k)
  end.

(** One source line of a template literal: indentation, text, line feed. *)
Definition line (indent : nat) (text : string) : string :=
  spaces indent ++ text ++ nl.

(** [name="value"] *)
Definition attr (name value : string) : string :=
  name ++ "=" ++ dq ++ value ++ dq.

(** ** Data model *)

Inductive LogLevel : Type := INFO | WARNING | ERROR | SUCCESS.

Definition level_name (l : LogLevel) : string :=
  match l with
  | INFO => "INFO"
  | WARNING => "WARNING"
  | ERROR => "ERROR"
  | SUCCESS => "SUCCESS"
  end.

Record LogEntry : Type := {
  parent : string;
  event_time : jsval;
  event_data : string;
  event_type : option LogLevel   (* [None]: the field is absent *)
}.

Record Action : Type := {
  action_name : string;
  linkedEvents : list string
}.

Record Event : Type := {
  event_name : string;
  key : string;
  active : bool
}.

(** ** The page *)

(** DOM nodes: elements (with the value of their [class] attribute) and
    text nodes. *)
Inductive node : Type :=
| Element (tag : string) (class : string) (children : list node)
| TextNode (text : string).

(** A [bootstrap.Modal] instance. *)
Record Modal : Type := {
  modal_element : string;
  isShown : bool
}.

(** What [console.error] printed. *)
Inductive logged : Type :=
| LoggedText (s : string)
| LoggedXhr (status : Z) (responseText : string).

Record request : Type := {
  req_method : string;
  req_url : string;
  req_data : list (string * jsval);       (* jQuery [data] of a GET: the query *)
  req_headers : list (string * string);
  req_body : option (list (string * jsval)) (* object given to JSON.stringify *)
}.

Record page : Type := {
  logContainer : list node;        (* children of #logContainer *)
  alerts : list string;            (* children of #alerts *)
  actionsTable : list string;      (* rows of #actionsTable *)
  eventsTable : list string;       (* rows of #eventsTable *)
  modalTitle : string;             (* text of #modalTitle *)
  modalBody : string;              (* html of .modal-body *)
  currentModal : option Modal;     (* dashboard.js: let currentModal = null *)
  lastLogTimestamp : jsval;        (* log script: let lastLogTimestamp = null *)
  console : list (string * logged);
  network : list request           (* requests sent, oldest first *)
}.

(** The page when the scripts are loaded: both variables are [null], as
    declared; the containers have no children yet. *)
Definition page_load : page := {|
  logContainer := [];
  alerts := [];
  actionsTable := [];
  eventsTable := [];
  modalTitle := "";
  modalBody := "";
  currentModal := None;
  lastLogTimestamp := JNull;
  console := [];
  network := []
|}.

Definition set_logContainer (v : list node) (s : page) : page := {|
  logContainer := v; alerts := alerts s; actionsTable := actionsTable s;
  eventsTable := eventsTable s; modalTitle := modalTitle s;
  modalBody := modalBody s; currentModal := currentModal s;
  lastLogTimestamp := lastLogTimestamp s; console := console s;
  network := network s |}.

Definition set_alerts (v : list string) (s : page) : page := {|
  logContainer := logContainer s; alerts := v; actionsTable := actionsTable s;
  eventsTable := eventsTable s; modalTitle := modalTitle s;
  modalBody := modalBody s; currentModal := currentModal s;
  lastLogTimestamp := lastLogTimestamp s; console := console s;
  network := network s |}.

Definition set_actionsTable (v : list string) (s : page) : page := {|
  logContainer := logContainer s; alerts := alerts s; actionsTable := v;
  eventsTable := eventsTable s; modalTitle := modalTitle s;
  modalBody := modalBody s; currentModal := currentModal s;
  lastLogTimestamp := lastLogTimestamp s; console := console s;
  network := network s |}.

Definition set_eventsTable (v : list string) (s : page) : page := {|
  logContainer := logContainer s; alerts := alerts s;
  actionsTable := actionsTable s; eventsTable := v;
  modalTitle := modalTitle s; modalBody := modalBody s;
  currentModal := currentModal s; lastLogTimestamp := lastLogTimestamp s;
  console := console s; network := network s |}.

Definition set_modal (title body : string) (m : option Modal) (s : page)
  : page := {|
  logContainer := logContainer s; alerts := alerts s;
  actionsTable := actionsTable s; eventsTable := eventsTable s;
  modalTitle := title; modalBody := body; currentModal := m;
  lastLogTimestamp := lastLogTimestamp s; console := console s;
  network := network s |}.

Definition set_currentModal (m : option Modal) (s : page) : page :=
  set_modal (modalTitle s) (modalBody s) m s.

Definition set_lastLogTimestamp (v : jsval) (s : page) : page := {|
  logContainer := logContainer s; alerts := alerts s;
  actionsTable := actionsTable s; eventsTable := eventsTable s;
  modalTitle := modalTitle s; modalBody := modalBody s;
  currentModal := currentModal s; lastLogTimestamp := v;
  console := console s; network := network s |}.

Definition set_console (v : list (string * logged)) (s : page) : page := {|
  logContainer := logContainer s; alerts := alerts s;
  actionsTable := actionsTable s; eventsTable := eventsTable s;
  modalTitle := modalTitle s; modalBody := modalBody s;
  currentModal := currentModal s; lastLogTimestamp := lastLogTimestamp s;
  console := v; network := network s |}.

Definition set_network (v : list request) (s : page) : page := {|
  logContainer := logContainer s; alerts := alerts s;
  actionsTable := actionsTable s; eventsTable := eventsTable s;
  modalTitle := modalTitle s; modalBody := modalBody s;
  currentModal := currentModal s; lastLogTimestamp := lastLogTimestamp s;
  console := console s; network := v |}.

(** [console.error(label, what)] *)
Definition console_error (label : string) (what : logged) (s : page) : page :=
  set_console (console s ++ [(label, what)]) s.

(** Putting a request on the wire. *)
Definition send (r : request) (s : page) : page :=
  set_network (network s ++ [r]) s.

(** ** jQuery's [$.ajax] *)

Inductive ajax_outcome (A : Type) : Type :=
| AjaxDone (payload : A)
| AjaxFail (xhr_status : Z) (responseText : string)
           (textStatus : string) (errorThrown : string).
Arguments AjaxDone {A} payload.
Arguments AjaxFail {A} xhr_status responseText textStatus errorThrown.

Record ajaxSettings (A : Type) : Type := {
  url : string;
  method : string;
  data : list (string * jsval);
  success : A -> page -> page;
  error : logged -> string -> string -> page -> page
}.
Arguments url {A}.
Arguments method {A}.
Arguments data {A}.
Arguments success {A}.
Arguments error {A}.

Definition ajax_request {A : Type} (o : ajaxSettings A) : request := {|
  req_method := method o;
  req_url := url o;
  req_data := data o;
  req_headers := [];
  req_body := None
|}.

(** The request is sent once; exactly one of the two callbacks runs when it
    settles. *)
Definition ajax {A : Type} (o : ajaxSettings A) (reply : ajax_outcome A)
  (s : page) : page :=
  let s1 := send (ajax_request o) s in
  match reply with
  | AjaxDone payload => success o payload s1
  | AjaxFail st body textStatus errorThrown =>
      error o (LoggedXhr st body) textStatus errorThrown s1
  end.

(** ** The document: class selectors and positional removal *)

(** ASCII whitespace, which separates the tokens of a [class] attribute. *)
Definition is_space (c : ascii) : bool :=
  let n := nat_of_ascii c in
  ((n =? 32) || (n =? 9) || (n =? 10) || (n =? 12) || (n =? 13))%nat.

Fixpoint tokens_from (current s : string) : list string :=
  match s with
  | EmptyString => if (current =? "") then [] else [current]
  | String c rest =>
      if is_space c
      then (if (current =? "") then tokens_from "" rest
            else current :: tokens_from "" rest)
      else tokens_from (current ++ String c EmptyString) rest
  end.

Definition class_tokens (class : string) : list string :=
  tokens_from "" class.

(** Whether an element whose [class] attribute is [class] matches the
    selector [.name]. *)
Definition has_class (name class : string) : bool :=
  existsb (String.eqb name) (class_tokens class).

(** The selector [.log-entry]. *)
Definition is_log_entry (class : string) : bool :=
  has_class "log-entry" class.

(** The number of elements matching [.log-entry] in a node and below it,
    nested ones included. *)
Fixpoint log_entries_in (n : node) : nat :=
  match n with
  | Element _ class children =>
      (if is_log_entry class then 1 else 0)
      + list_sum (map log_entries_in children)
  | TextNode _ => 0
  end.

(** The same for a run of sibling nodes. *)
Definition log_entries (nodes : list node) : nat :=
  list_sum (map log_entries_in nodes).

(** Removing the [.log-entry] elements that are past a position in document
    order.  [room] is the number of [.log-entry] elements that may still
    stay when the node is reached: an element matching the selector is
    removed, with all it contains, when no room is left, and takes one place
    otherwise; the nodes after it find the room less by the matching
    elements it contains.  Other nodes stay. *)
Fixpoint keep_log_entries_in (room : nat) (n : node) {struct n} : list node :=
  let among :=
    fix among (room : nat) (nodes : list node) {struct nodes} : list node :=
      match nodes with
      | [] => []
      | c :: rest =>
          (keep_log_entries_in room c
           ++ among (room - log_entries_in c) rest)%list
      end in
  match n with
  | Element tag class children =>
      if is_log_entry class
      then match room with
           | O => []
           | S remaining => [Element tag class (among remaining children)]
           end
      else [Element tag class (among room children)]
  | TextNode text => [TextNode text]
  end.

Fixpoint keep_log_entries (room : nat) (nodes : list node) : list node :=
  match nodes with
  | [] => []
  | c :: rest =>
      (keep_log_entries_in room c
       ++ keep_log_entries (room - log_entries_in c) rest)%list
  end.

(** Induction on a node, with the property at hand for every child. *)
Section NodeInduction.

Variable P : node -> Prop.
Hypothesis on_element :
  forall tag class children,
    Forall P children -> P (Element tag class children).
Hypothesis on_text : forall text, P (TextNode text).

Fixpoint node_forall_ind (n : node) : P n :=
  match n with
  | Element tag class children =>
      on_element tag class children
        ((fix all (l : list node) : Forall P l :=
            match l with
            | [] => Forall_nil P
            | c :: rest => Forall_cons c (node_forall_ind c) (all rest)
            end) children)
  | TextNode text => on_text text
  end.

End NodeInduction.

(** What the scripts rely on the browser for when they handle markup: the
    parser jQuery hands an HTML string to before inserting it, and the part
    of the document that is not theirs.  The page template is not among the
    sources; [entries_above] is the number of [.log-entry] elements the
    document has ahead of the children of [#logContainer]. *)
Record DOM : Type := {
  parseHTML : string -> list node;
  entries_above : nat
}.

(** * static/js/dashboard.js *)

Module Dashboard.

(** ** Alerts *)

(** The fragment [showAlert] builds. *)
Definition alert_markup (type message : string) : string :=
  nl ++
  line 8 ("<div " ++ attr "class" ("alert alert-" ++ type ++
          " alert-dismissible fade show") ++ " " ++ attr "role" "alert" ++ ">") ++
  line 12 message ++
  line 12 ("<button " ++ attr "type" "button" ++ " " ++
           attr "class" "btn-close" ++ " " ++
           attr "data-bs-dismiss" "alert" ++ "></button>") ++
  line 8 "</div>" ++
  spaces 4.

(** [function showAlert(type, message)] *)
Definition showAlert (type message : string) (s : page) : page :=
  let alert := alert_markup type message in
  set_alerts (alerts s ++ [alert]) s.

(** ** Control flow: state, exceptions, awaited results *)

(** A thrown [Error] (or a rejected promise's reason). *)
Record JsError : Type := new_Error { message : string }.

(** A computation on the page that returns or throws; what it wrote to the
    page before throwing stays written. *)
Definition M (A : Type) : Type := page -> (JsError + A) * page.

Definition ret {A : Type} (a : A) : M A := fun s => (inr a, s).

Definition bind {A B : Type} (c : M A) (k : A -> M B) : M B :=
  fun s =>
    match c s with
    | (inr a, s1) => k a s1
    | (inl e, s1) => (inl e, s1)
    end.

Definition throw {A : Type} (e : JsError) : M A := fun s => (inl e, s).

(** [try { body } catch (error) { handler }] *)
Definition try_catch {A : Type} (body : M A) (handler : JsError -> M A) : M A :=
  fun s =>
    match body s with
    | (inr a, s1) => (inr a, s1)
    | (inl e, s1) => handler e s1
    end.

(** A statement that only writes to the page. *)
Definition act (f : page -> page) : M unit := fun s => (inr tt, f s).

(** [await p], for a promise that settles as [settled]. *)
Definition await {A : Type} (settled : JsError + A) : M A :=
  fun s => (settled, s).

Declare Scope js_scope.
Delimit Scope js_scope with js.
Notation "x <- c ;; k" := (bind c (fun x => k))
  (at level 61, c at next level, right associativity) : js_scope.
Notation "c ;; k" := (bind c (fun _ => k))
  (at level 61, right associativity) : js_scope.
Local Open Scope js_scope.

(** The page a computation leaves, and whether it returned normally. *)
Definition after {A : Type} (c : M A) (s : page) : page := snd (c s).

Definition returns {A : Type} (c : M A) (s : page) : bool :=
  match fst (c s) with
  | inr _ => true
  | inl _ => false
  end.

(** ** fetch *)

(** A received response: status line, the body as text, and the body as
    parsed JSON ([None] when the body is not JSON of the expected kind's
    syntax, so that [json()] rejects). *)
Record Response (A : Type) : Type := {
  status : Z;
  body_text : string;
  body_json : option A
}.
Arguments status {A}.
Arguments body_text {A}.
Arguments body_json {A}.

(** [response.ok] *)
Definition ok {A : Type} (r : Response A) : bool :=
  ((200 <=? status r) && (status r <=? 299))%Z.

(** How [fetch(...)] settles: rejected (transport failure) or resolved with a
    response of any status. *)
Definition fetch_outcome (A : Type) : Type := (JsError + Response A)%type.

Definition json_headers : list (string * string) :=
  [("Content-Type", "application/json")].

Definition get_request (path : string) : request := {|
  req_method := "GET"; req_url := path; req_data := [];
  req_headers := []; req_body := None |}.

Definition post_json (path : string) (obj : list (string * jsval)) : request := {|
  req_method := "POST"; req_url := path; req_data := [];
  req_headers := json_headers; req_body := Some obj |}.

(** Calling [fetch]: the request leaves at once. *)
Definition fetch (r : request) : M unit := act (send r).

(** [p.then(r => r.json())] *)
Definition then_json {A : Type} (settled : fetch_outcome A) : JsError + A :=
  match settled with
  | inl e => inl e
  | inr r =>
      match body_json r with
      | Some a => inr a
      | None => inl (new_Error "Unexpected token in JSON")
      end
  end.

(** [Promise.all([p, q])]: fulfilled with both values, rejected as soon as
    one of the two is. *)
Definition Promise_all {A B : Type} (p : JsError + A) (q : JsError + B)
  : JsError + (A * B) :=
  match p, q with
  | inr a, inr b => inr (a, b)
  | inl e, _ => inl e
  | inr _, inl e => inl e
  end.

(** ** Modal form host *)

Definition new_Modal (selector : string) : Modal :=
  {| modal_element := selector; isShown := false |}.

Definition Modal_show (m : Modal) : Modal :=
  {| modal_element := modal_element m; isShown := true |}.

Definition Modal_hide (m : Modal) : Modal :=
  {| modal_element := modal_element m; isShown := false |}.

(** [function showModal(title, content)] *)
Definition showModal (title content : string) : M unit :=
  act (fun s =>
         set_modal title content
                   (Some (Modal_show (new_Modal "#componentModal"))) s).

(** [function closeModal()] *)
Definition closeModal : M unit :=
  fun s =>
    match currentModal s with
    | Some m => (inr tt, set_currentModal (Some (Modal_hide m)) s)
    | None => (inr tt, s)
    end.

(** ** Component registry *)

Definition action_row (a : Action) : string :=
  nl ++
  line 12 "<tr>" ++
  line 16 ("<td>" ++ action_name a ++ "</td>") ++
  line 16 ("<td>" ++ str_or (String.concat ", " (linkedEvents a)) "None" ++
           "</td>") ++
  line 16 ("<td><span " ++ attr "class" "badge bg-success" ++
           ">Active</span></td>") ++
  line 16 "<td>" ++
  line 20 ("<button " ++ attr "class" "btn btn-sm btn-outline-danger" ++ " " ++
           attr "onclick" ("deleteAction(" ++ sq ++ action_name a ++ sq ++ ")")
           ++ ">") ++
  line 24 ("<i " ++ attr "class" "bi bi-trash" ++ "></i>") ++
  line 20 "</button>" ++
  line 16 "</td>" ++
  line 12 "</tr>" ++
  spaces 8.

Definition event_row (e : Event) : string :=
  nl ++
  line 12 "<tr>" ++
  line 16 ("<td>" ++ event_name e ++ "</td>") ++
  line 16 ("<td><code>" ++ key e ++ "</code></td>") ++
  line 16 ("<td><span " ++ attr "class" "badge bg-success" ++
           ">Active</span></td>") ++
  line 16 "<td>" ++
  line 20 ("<button " ++ attr "class" "btn btn-sm btn-outline-danger" ++ " " ++
           attr "onclick" ("deleteEvent(" ++ sq ++ event_name e ++ sq ++ ")")
           ++ ">") ++
  line 24 ("<i " ++ attr "class" "bi bi-trash" ++ "></i>") ++
  line 20 "</button>" ++
  line 16 "</td>" ++
  line 12 "</tr>" ++
  spaces 8.

(** [function updateActionsTable(actions)] *)
Definition updateActionsTable (actions : list Action) : M unit :=
  act (fun s =>
         let emptied := set_actionsTable [] s in
         fold_left
           (fun s1 action =>
              set_actionsTable (actionsTable s1 ++ [action_row action]) s1)
           actions emptied).

(** [function updateEventsTable(events)] *)
Definition updateEventsTable (events : list Event) : M unit :=
  act (fun s =>
         let emptied := set_eventsTable [] s in
         fold_left
           (fun s1 event =>
              set_eventsTable (eventsTable s1 ++ [event_row event]) s1)
           events emptied).

Definition actions_request : request := get_request "/api/actions".
Definition events_request : request := get_request "/api/events".

(** [async function refreshComponents()], given how the two fetches
    settle. *)
Definition refreshComponents (ra : fetch_outcome (list Action))
  (re : fetch_outcome (list Event)) : M unit :=
  try_catch
    (fetch actions_request ;;
     fetch events_request ;;
     both <- await (Promise_all (then_json ra) (then_json re)) ;;
     updateActionsTable (fst both) ;;
     updateEventsTable (snd both))
    (fun _ => act (showAlert "danger" "Error refreshing components")).

(** A call [refreshComponents();] that is not awaited runs the function up
    to its first [await] and returns: the two requests are on the wire. *)
Definition refreshComponents_called : M unit :=
  fetch actions_request ;;
  fetch events_request.

(** The rest of that call, run when the two fetches have settled. *)
Definition refreshComponents_resumed (ra : fetch_outcome (list Action))
  (re : fetch_outcome (list Event)) : M unit :=
  try_catch
    (both <- await (Promise_all (then_json ra) (then_json re)) ;;
     updateActionsTable (fst both) ;;
     updateEventsTable (snd both))
    (fun _ => act (showAlert "danger" "Error refreshing components")).

(** ** Create-action flow *)

Definition createAction_form : string :=
  nl ++
  line 8 ("<form " ++ attr "id" "createActionForm" ++ ">") ++
  line 12 ("<div " ++ attr "class" "mb-3" ++ ">") ++
  line 16 ("<label " ++ attr "class" "form-label" ++ ">Action Name</label>") ++
  line 16 ("<input " ++ attr "type" "text" ++ " " ++
           attr "class" "form-control" ++ " " ++ attr "id" "actionName" ++
           " required>") ++
  line 16 ("<small " ++ attr "class" "text-muted" ++
           ">Use PascalCase, e.g., " ++ dq ++ "MyAction" ++ dq ++ "</small>") ++
  line 12 "</div>" ++
  line 12 ("<button " ++ attr "type" "submit" ++ " " ++
           attr "class" "btn btn-primary w-100" ++ ">Create Action</button>") ++
  line 8 "</form>" ++
  spaces 4.

(** [function createAction()]: opens the form; its submit handler is
    [createActionForm_submit]. *)
Definition createAction : M unit :=
  showModal "Create New Action" createAction_form.

Definition create_action_request (actionName : string) : request :=
  post_json "/api/action/create" [("name", JStr actionName)].

(** The submit handler of [#createActionForm], for the value [actionName]
    of [#actionName] and the way the POST settles. *)
Definition createActionForm_submit (actionName : string)
  (reply : fetch_outcome unit) : M unit :=
  try_catch
    (fetch (create_action_request actionName) ;;
     response <- await reply ;;
     if ok response then
       act (showAlert "success"
                      ("Action " ++ actionName ++ " created successfully!")) ;;
       refreshComponents_called ;;
       closeModal
     else
       throw (new_Error (body_text response)))
    (fun error =>
       act (showAlert "danger" ("Error creating action: " ++ message error))).

(** ** Exchange settings form *)

Definition binance_settings_request (apiKey apiSecret : string)
  (testnet : bool) : request :=
  post_json "/api/settings/binance"
            [("apiKey", JStr apiKey); ("apiSecret", JStr apiSecret);
             ("testnet", JBool testnet)].

(** The submit handler of [#apiForm]. *)
Definition apiForm_submit (apiKey apiSecret : string) (testnetMode : bool)
  (reply : fetch_outcome unit) : M unit :=
  try_catch
    (fetch (binance_settings_request apiKey apiSecret testnetMode) ;;
     response <- await reply ;;
     if ok response then
       act (showAlert "success" "Binance settings updated successfully!")
     else
       throw (new_Error (body_text response)))
    (fun error =>
       act (showAlert "danger"
                      ("Error updating Binance settings: " ++ message error))).

(** ** Create-event flow *)

Definition createEvent_form : string :=
  nl ++
  line 8 ("<form " ++ attr "id" "createEventForm" ++ ">") ++
  line 12 ("<div " ++ attr "class" "mb-3" ++ ">") ++
  line 16 ("<label " ++ attr "class" "form-label" ++ ">Event Name</label>") ++
  line 16 ("<input " ++ attr "type" "text" ++ " " ++
           attr "class" "form-control" ++ " " ++ attr "id" "eventName" ++
           " required>") ++
  line 16 ("<small " ++ attr "class" "text-muted" ++
           ">Use PascalCase, e.g., " ++ dq ++ "MyEvent" ++ dq ++ "</small>") ++
  line 12 "</div>" ++
  line 12 ("<button " ++ attr "type" "submit" ++ " " ++
           attr "class" "btn btn-primary w-100" ++ ">Create Event</button>") ++
  line 8 "</form>" ++
  spaces 4.

(** [function createEvent()]: opens the form; its submit handler is
    [createEventForm_submit]. *)
Definition createEvent : M unit :=
  showModal "Create New Event" createEvent_form.

Definition create_event_request (eventName : string) : request :=
  post_json "/api/event/create" [("name", JStr eventName)].

(** The submit handler of [#createEventForm]. *)
Definition createEventForm_submit (eventName : string)
  (reply : fetch_outcome unit) : M unit :=
  try_catch
    (fetch (create_event_request eventName) ;;
     response <- await reply ;;
     if ok response then
       act (showAlert "success"
                      ("Event " ++ eventName ++ " created successfully!")) ;;
       refreshComponents_called ;;
       closeModal
     else
       throw (new_Error (body_text response)))
    (fun error =>
       act (showAlert "danger" ("Error creating event: " ++ message error))).

(** ** Link flow *)

(** The [<option>] elements of the two dropdowns of the link form, each as
    the markup it was made from. *)
Record selects : Type := {
  actionSelect : list string;
  eventSelect : list string
}.

Definition option_markup (value label : string) : string :=
  "<option " ++ attr "value" value ++ ">" ++ label ++ "</option>".

Definition action_placeholder : string := option_markup "" "Choose action...".
Definition event_placeholder : string := option_markup "" "Choose event...".

Definition linkForm : string :=
  nl ++
  line 8 ("<form " ++ attr "id" "linkForm" ++ ">") ++
  line 12 ("<div " ++ attr "class" "mb-3" ++ ">") ++
  line 16 ("<label " ++ attr "class" "form-label" ++ ">Select Action</label>") ++
  line 16 ("<select " ++ attr "class" "form-select" ++ " " ++
           attr "id" "actionSelect" ++ " required>") ++
  line 20 action_placeholder ++
  line 16 "</select>" ++
  line 12 "</div>" ++
  line 12 ("<div " ++ attr "class" "mb-3" ++ ">") ++
  line 16 ("<label " ++ attr "class" "form-label" ++ ">Select Event</label>") ++
  line 16 ("<select " ++ attr "class" "form-select" ++ " " ++
           attr "id" "eventSelect" ++ " required>") ++
  line 20 event_placeholder ++
  line 16 "</select>" ++
  line 12 "</div>" ++
  line 12 ("<button " ++ attr "type" "submit" ++ " " ++
           attr "class" "btn btn-primary w-100" ++ ">Link Components</button>") ++
  line 8 "</form>" ++
  spaces 4.

(** The dropdowns as the freshly inserted form has them. *)
Definition linkForm_selects : selects :=
  {| actionSelect := [action_placeholder];
     eventSelect := [event_placeholder] |}.

(** [async function loadComponents()], for the dropdowns [sel] that are in
    the page when it runs and the way the two fetches settle; the result is
    the dropdowns it leaves. *)
Definition loadComponents (ra : fetch_outcome (list Action))
  (re : fetch_outcome (list Event)) (sel : selects) : M selects :=
  try_catch
    (fetch actions_request ;;
     fetch events_request ;;
     both <- await (Promise_all (then_json ra) (then_json re)) ;;
     let actionSelect0 := ([] ++ [action_placeholder])%list in
     let eventSelect0 := ([] ++ [event_placeholder])%list in
     let actionSelect1 :=
       fold_left
         (fun options action =>
            (options ++ [option_markup (action_name action)
                                       (action_name action)])%list)
         (fst both) actionSelect0 in
     let eventSelect1 :=
       fold_left
         (fun options event =>
            (options ++ [option_markup (event_name event)
                                       (event_name event)])%list)
         (snd both) eventSelect0 in
     ret {| actionSelect := actionSelect1; eventSelect := eventSelect1 |})
    (fun _ =>
       act (showAlert "danger" "Error loading components") ;;
       ret sel).

(** A call [loadComponents();] that is not awaited runs the function up
    to its first [await] and returns: the two requests are on the wire. *)
Definition loadComponents_called : M unit :=
  fetch actions_request ;;
  fetch events_request.

(** The rest of that call, run when the two fetches have settled. *)
Definition loadComponents_resumed (ra : fetch_outcome (list Action))
  (re : fetch_outcome (list Event)) (sel : selects) : M selects :=
  try_catch
    (both <- await (Promise_all (then_json ra) (then_json re)) ;;
     let actionSelect0 := ([] ++ [action_placeholder])%list in
     let eventSelect0 := ([] ++ [event_placeholder])%list in
     let actionSelect1 :=
       fold_left
         (fun options action =>
            (options ++ [option_markup (action_name action)
                                       (action_name action)])%list)
         (fst both) actionSelect0 in
     let eventSelect1 :=
       fold_left
         (fun options event =>
            (options ++ [option_markup (event_name event)
                                       (event_name event)])%list)
         (snd both) eventSelect0 in
     ret {| actionSelect := actionSelect1; eventSelect := eventSelect1 |})
    (fun _ =>
       act (showAlert "danger" "Error loading components") ;;
       ret sel).

(** [function linkActionEvent()]: opens the form and fills its dropdowns;
    its submit handler is [linkForm_submit]. *)
Definition linkActionEvent (ra : fetch_outcome (list Action))
  (re : fetch_outcome (list Event)) : M selects :=
  showModal "Link Action to Event" linkForm ;;
  loadComponents ra re linkForm_selects.

Definition link_request (actionName eventName : string) : request :=
  post_json "/api/link"
            [("action", JStr actionName); ("event", JStr eventName)].

(** The submit handler of [#linkForm], for the values of the two
    dropdowns. *)
Definition linkForm_submit (actionName eventName : string)
  (reply : fetch_outcome unit) : M unit :=
  try_catch
    (fetch (link_request actionName eventName) ;;
     response <- await reply ;;
     if ok response then
       act (showAlert "success" "Components linked successfully!") ;;
       refreshComponents_called ;;
       closeModal
     else
       throw (new_Error (body_text response)))
    (fun error =>
       act (showAlert "danger" ("Error linking components: " ++ message error))).

(** ** Risk settings form *)

Definition risk_settings_request (maxPosition riskPerTrade : string)
  : request :=
  post_json "/api/settings/risk"
            [("maxPosition", JStr maxPosition);
             ("riskPerTrade", JStr riskPerTrade)].

(** The submit handler of [#riskForm]. *)
Definition riskForm_submit (maxPosition riskPerTrade : string)
  (reply : fetch_outcome unit) : M unit :=
  try_catch
    (fetch (risk_settings_request maxPosition riskPerTrade) ;;
     response <- await reply ;;
     if ok response then
       act (showAlert "success" "Risk settings updated successfully!")
     else
       throw (new_Error (body_text response)))
    (fun error =>
       act (showAlert "danger"
                      ("Error updating risk settings: " ++ message error))).

(** ** Active events *)

(** [String(b)] *)
Definition bool_text (b : bool) : string := if b then "true" else "false".

Definition active_event_row (e : Event) : string :=
  nl ++
  line 20 "<tr>" ++
  line 24 ("<td>" ++ event_name e ++ "</td>") ++
  line 24 ("<td><code>" ++ key e ++ "</code></td>") ++
  line 24 "<td>" ++
  line 28 ("<span " ++
           attr "class" ("badge " ++
                         (if active e then "bg-success" else "bg-warning")) ++
           ">") ++
  line 32 (if active e then "Active" else "Inactive") ++
  line 28 "</span>" ++
  line 24 "</td>" ++
  line 24 "<td>" ++
  line 28 ("<button " ++ attr "class" "btn btn-sm btn-icon btn-outline-primary"
           ++ " ") ++
  line 36 (attr "onclick" ("toggleEvent(" ++ sq ++ event_name e ++ sq ++ ", " ++
                           bool_text (negb (active e)) ++ ")") ++ ">") ++
  line 32 ("<i " ++
           attr "class" ("bi " ++
                         (if active e then "bi-pause-fill" else "bi-play-fill"))
           ++ "></i>") ++
  line 28 "</button>" ++
  line 28 ("<button " ++ attr "class" "btn btn-sm btn-icon btn-outline-danger"
           ++ " ") ++
  line 36 (attr "onclick" ("deleteEvent(" ++ sq ++ event_name e ++ sq ++ ")")
           ++ ">") ++
  line 32 ("<i " ++ attr "class" "bi bi-trash" ++ "></i>") ++
  line 28 "</button>" ++
  line 24 "</td>" ++
  line 20 "</tr>" ++
  spaces 16.

(** The settings of the [$.ajax] call of [updateActiveEvents]; there is no
    [error] callback, so a failure runs nothing. *)
Definition active_events_request : ajaxSettings (list Event) := {|
  url := "/api/events/active";
  method := "GET";
  data := [];
  success := fun events s =>
    let emptied := set_eventsTable [] s in
    fold_left
      (fun s1 event =>
         set_eventsTable (eventsTable s1 ++ [active_event_row event]) s1)
      events emptied;
  error := fun _ _ _ s => s
|}.

(** [function updateActiveEvents()] *)
Definition updateActiveEvents (reply : ajax_outcome (list Event)) (s : page)
  : page :=
  ajax active_events_request reply s.

(** ** Account information *)

Section Account.

(** JavaScript numbers with a fraction (balances), and the two ways the
    script prints them: [n.toFixed(digits)] and template interpolation. *)
Variable number : Type.
Variable toFixed : number -> nat -> string.
Variable Number_toString : number -> string.

Record AccountInfo : Type := {
  balance : number;
  marginLevel : number;
  availableBalance : number
}.

(** What the account widgets show: the text of [#balance] and the html of
    [#accountInfo]. *)
Record account_view : Type := {
  balance_text : string;
  accountInfo_html : string
}.

Definition account_request : request := {|
  req_method := "GET"; req_url := "/api/account/info"; req_data := [];
  req_headers := []; req_body := None |}.

(** [function updateAccountInfo()], on the page and the account widgets. *)
Definition updateAccountInfo (reply : ajax_outcome AccountInfo)
  (st : page * account_view) : page * account_view :=
  let s1 := send account_request (fst st) in
  match reply with
  | AjaxDone info =>
      (s1,
       {| balance_text := "Balance: $" ++ toFixed (balance info) 2;
          accountInfo_html :=
            nl ++
            line 16 ("<div>Margin Level: " ++
                     Number_toString (marginLevel info) ++ "%</div>") ++
            line 16 ("<div>Available Balance: $" ++
                     toFixed (availableBalance info) 2 ++ "</div>") ++
            spaces 12 |})
  | AjaxFail _ _ _ errorThrown =>
      (console_error "Error updating account info:" (LoggedText errorThrown) s1,
       snd st)
  end.

(** [function updateDashboard()]: both requests leave at once; the two
    callbacks write to different parts of the page. *)
Definition updateDashboard (account : ajax_outcome AccountInfo)
  (events : ajax_outcome (list Event)) (st : page * account_view)
  : page * account_view :=
  let st1 := updateAccountInfo account st in
  (updateActiveEvents events (fst st1), snd st1).

End Account.

End Dashboard.

(** * Log panel, first script: the full-refresh poller *)

Module FullRefresh.

Section WithLocale.

(** [new Date(t).toLocaleString()]: depends on the browser's locale and time
    zone. *)
Variable Date_toLocaleString : jsval -> string.

(** The element built for one log by the body of the [forEach]. *)
Definition log_element (log : LogEntry) : node :=
  let source := Element "span" "fw-bold text-primary" [TextNode (parent log)] in
  let timestamp :=
    Element "span" "text-muted small"
            [TextNode (Date_toLocaleString (event_time log))] in
  let header :=
    Element "div" "d-flex justify-content-between mb-1" [source; timestamp] in
  let message := Element "div" "small" [TextNode (event_data log)] in
  Element "div" "log-entry mb-2 p-2 border-bottom" [header; message].

(** [function updateLogs(logs)] *)
Definition updateLogs (logs : list LogEntry) (s : page) : page :=
  let emptied := set_logContainer [] s in
  fold_left
    (fun s1 log => set_logContainer (logContainer s1 ++ [log_element log]) s1)
    logs emptied.

Definition logs_request : ajaxSettings (list LogEntry) := {|
  url := "/logs";
  method := "GET";
  data := [];
  success := fun data => updateLogs (firstn 20 (rev data));
  error := fun xhr _ _ => console_error "Error fetching logs:" xhr
|}.

(** [function getLogData()], one tick. *)
Definition getLogData (reply : ajax_outcome (list LogEntry)) (s : page)
  : page :=
  ajax logs_request reply s.

(** The initial load and the interval ticks, one reply per tick. *)
Definition run (replies : list (ajax_outcome (list LogEntry))) (s : page)
  : page :=
  fold_left (fun s1 reply => getLogData reply s1) replies s.

End WithLocale.

End FullRefresh.

(** * Log panel, second script: the incremental poller *)

Module Incremental.

Definition maxLogs : nat := 100.

Section WithLocale.

Variable Date_toLocaleString : jsval -> string.
Variable dom : DOM.

(** [function formatTimestamp(timestamp)] *)
Definition formatTimestamp (timestamp : jsval) : string :=
  Date_toLocaleString timestamp.

(** [levelColors[level] || 'text-secondary'] *)
Definition levelColor (level : option LogLevel) : string :=
  match level with
  | Some INFO => "text-info"
  | Some WARNING => "text-warning"
  | Some ERROR => "text-danger"
  | Some SUCCESS => "text-success"
  | None => "text-secondary"
  end.

(** [function formatLogLevel(level)] *)
Definition formatLogLevel (level : option LogLevel) : string :=
  "<span " ++ attr "class" (levelColor level) ++ ">" ++
  match level with
  | Some l => level_name l
  | None => "undefined"
  end ++ "</span>".

(** [function createLogEntry(log)] *)
Definition createLogEntry (log : LogEntry) : string :=
  nl ++
  line 12 ("<div " ++ attr "class" "log-entry" ++ ">") ++
  line 16 ("<div " ++ attr "class" "d-flex justify-content-between" ++ ">") ++
  line 20 ("<span " ++ attr "class" "fw-bold" ++ ">" ++ parent log ++
           "</span>") ++
  line 20 ("<small " ++ attr "class" "text-muted" ++ ">" ++
           formatTimestamp (event_time log) ++ "</small>") ++
  line 16 "</div>" ++
  line 16 ("<div " ++ attr "class" "mt-1" ++ ">") ++
  line 20 (formatLogLevel (event_type log) ++ " " ++ event_data log) ++
  line 16 "</div>" ++
  line 12 "</div>" ++
  spaces 8.

(** [logContainer.prepend(html)]: the string is parsed and the nodes it
    yields are put, in their order, before the first child. *)
Definition prepend (html : string) (s : page) : page :=
  set_logContainer (parseHTML dom html ++ logContainer s)%list s.

(** [$('.log-entry:gt(' + i + ')').remove()]: of all the elements of the
    document that match [.log-entry], taken in document order and counted
    from 0, those at an index greater than [i] are removed.  The matching
    elements under [#logContainer] come after the [entries_above] ones ahead
    of it, so [S i - entries_above] of them may stay. *)
Definition remove_log_entries_gt (i : nat) (s : page) : page :=
  set_logContainer
    (keep_log_entries (S i - entries_above dom) (logContainer s)) s.

(** [logs[logs.length - 1].event_time]; reading past the array gives
    [undefined]. *)
Definition last_event_time (logs : list LogEntry) : jsval :=
  match nth_error logs (List.length logs - 1) with
  | Some log => event_time log
  | None => JUndefined
  end.

(** The [success] callback of [updateLogs]. *)
Definition updateLogs_success (logs : list LogEntry) (s : page) : page :=
  if (0 <? List.length logs)%nat then
    let s1 := set_lastLogTimestamp (last_event_time logs) s in
    let s2 := fold_left (fun st log => prepend (createLogEntry log) st) logs s1 in
    remove_log_entries_gt (maxLogs - 1) s2
  else s.

(** The settings object of the [$.ajax] call, built when the tick starts. *)
Definition logs_request (s : page) : ajaxSettings (list LogEntry) := {|
  url := "/logs";
  method := "GET";
  data := if truthy (lastLogTimestamp s)
          then [("since", lastLogTimestamp s)]
          else [];
  success := updateLogs_success;
  error := fun _ _ errorThrown =>
             console_error "Error fetching logs:" (LoggedText errorThrown)
|}.

(** [function updateLogs()], one tick. *)
Definition updateLogs (reply : ajax_outcome (list LogEntry)) (s : page)
  : page :=
  ajax (logs_request s) reply s.

Definition clear_request : ajaxSettings unit := {|
  url := "/logs/clear";
  method := "POST";
  data := [];
  success := fun _ s =>
    let s1 := set_logContainer [] s in
    let s2 := set_lastLogTimestamp JNull s1 in
    Dashboard.showAlert "success" "Logs cleared successfully" s2;
  error := fun _ _ errorThrown =>
    Dashboard.showAlert "danger" ("Error clearing logs: " ++ errorThrown)
|}.

(** [window.clearLogs = function()] *)
Definition clearLogs (reply : ajax_outcome unit) (s : page) : page :=
  ajax clear_request reply s.

(** What happens on the page of this script: a poller tick or a click on
    the clear button, each with the server's answer. *)
Inductive event : Type :=
| Tick (reply : ajax_outcome (list LogEntry))
| Clear (reply : ajax_outcome unit).

Definition step (s : page) (e : event) : page :=
  match e with
  | Tick reply => updateLogs reply s
  | Clear reply => clearLogs reply s
  end.

Definition run (events : list event) (s : page) : page :=
  fold_left step events s.

End WithLocale.

End Incremental.

(** * Auxiliary definitions for the statements *)

Definition sample_locale : jsval -> string :=
  fun _ => "1/1/2024, 12:00:00 AM".

Definition sample_log : LogEntry := {|
  parent := "EventX";
  event_time := JStr "2024-01-01T00:00:00Z";
  event_data := "fired";
  event_type := None
|}.

(** A stand-in for the browser on a page whose template has no log entry
    of its own: every fragment is taken to be one [.log-entry] element
    holding the markup as text. *)
Definition sample_dom : DOM := {|
  parseHTML := fun html => [Element "div" "log-entry" [TextNode html]];
  entries_above := 0
|}.

(** A browser that finds a second [.log-entry] element nested in every
    fragment, as happens when a log's text carries such markup. *)
Definition nesting_dom : DOM := {|
  parseHTML := fun html =>
    [Element "div" "log-entry"
       [TextNode html; Element "div" "log-entry" []]];
  entries_above := 0
|}.

Definition logs_get (query : list (string * jsval)) : request := {|
  req_method := "GET"; req_url := "/logs"; req_data := query;
  req_headers := []; req_body := None |}.

Definition logs_clear_post : request := {|
  req_method := "POST"; req_url := "/logs/clear"; req_data := [];
  req_headers := []; req_body := None |}.

(** The nodes a tick of the incremental poller puts on top of the list for
    a response: the parsed fragment of each entry, that of the last entry
    first. *)
Definition fragments (fmt : jsval -> string) (dom : DOM)
  (logs : list LogEntry) : list node :=
  concat (map (fun log => parseHTML dom (Incremental.createLogEntry fmt log))
              (rev logs)).

(** A tick that brings nothing new: a failed fetch or an empty response. *)
Definition quiet (e : Incremental.event) : bool :=
  match e with
  | Incremental.Tick (AjaxDone []) => true
  | Incremental.Tick (AjaxFail _ _ _ _) => true
  | _ => false
  end.

(** A fetch whose promise chain [fetch(...).then(r => r.json())] rejects:
    the fetch itself failed, or the body could not be parsed. *)
Definition fetch_fails {A : Type} (o : Dashboard.fetch_outcome A) : bool :=
  match o with
  | inl _ => true
  | inr r =>
      match Dashboard.body_json r with
      | None => true
      | Some _ => false
      end
  end.

Definition sample_network_failure {A : Type} : Dashboard.fetch_outcome A :=
  inl (Dashboard.new_Error "Failed to fetch").

Definition sample_action : Action :=
  {| action_name := "MyAction"; linkedEvents := [] |}.

Definition sample_event : Event :=
  {| event_name := "MyEvent"; key := "MyEvent:abc"; active := true |}.

Definition sample_actions_reply : Dashboard.fetch_outcome (list Action) :=
  inr {| Dashboard.status := 200;
         Dashboard.body_text :=
           "[{" ++ dq ++ "name" ++ dq ++ ":" ++ dq ++ "MyAction" ++ dq ++ "," ++
           dq ++ "linkedEvents" ++ dq ++ ":[]}]";
         Dashboard.body_json := Some [sample_action] |}.

Definition sample_events_reply : Dashboard.fetch_outcome (list Event) :=
  inr {| Dashboard.status := 200;
         Dashboard.body_text :=
           "[{" ++ dq ++ "name" ++ dq ++ ":" ++ dq ++ "MyEvent" ++ dq ++ "," ++
           dq ++ "key" ++ dq ++ ":" ++ dq ++ "MyEvent:abc" ++ dq ++ "," ++
           dq ++ "active" ++ dq ++ ":true}]";
         Dashboard.body_json := Some [sample_event] |}.

(** * The client as a whole *)

(** Whether the POST of a form was answered with a 2xx response. *)
Definition accepted {A : Type} (reply : Dashboard.fetch_outcome A) : bool :=
  match reply with
  | inl _ => false
  | inr r => Dashboard.ok r
  end.

(** What a failed POST reports: the rejection's message, or the body of the
    non-2xx response. *)
Definition failure_text {A : Type} (reply : Dashboard.fetch_outcome A)
  : string :=
  match reply with
  | inl e => Dashboard.message e
  | inr r => Dashboard.body_text r
  end.

(** The turns of the event loop on the dashboard page: a button opens a
    form, a form is submitted, a timer fires.  [Refresh] and [OpenLink] run
    a registry refresh, or the loading of the dropdowns, from its start to
    its end in one go; where other turns come between the start and the
    end, the two halves are turns of their own: [RefreshStarted] and
    [OpenLinkStarted] run up to the first [await], [RefreshResumed] and
    [LoadResumed] run the rest once the two fetches have settled.  The
    registry refresh that an accepted submit starts without awaiting it is
    part of the submit's turn up to its [await], and resumes as a
    [RefreshResumed]. *)
Inductive op : Type :=
| OpenCreateAction
| OpenCreateEvent
| OpenLink (ra : Dashboard.fetch_outcome (list Action))
           (re : Dashboard.fetch_outcome (list Event))
| SubmitCreateAction (actionName : string) (reply : Dashboard.fetch_outcome unit)
| SubmitCreateEvent (eventName : string) (reply : Dashboard.fetch_outcome unit)
| SubmitLink (actionName eventName : string)
             (reply : Dashboard.fetch_outcome unit)
| SubmitApiForm (apiKey apiSecret : string) (testnet : bool)
                (reply : Dashboard.fetch_outcome unit)
| SubmitRiskForm (maxPosition riskPerTrade : string)
                 (reply : Dashboard.fetch_outcome unit)
| Refresh (ra : Dashboard.fetch_outcome (list Action))
          (re : Dashboard.fetch_outcome (list Event))
| RefreshResumed (ra : Dashboard.fetch_outcome (list Action))
                 (re : Dashboard.fetch_outcome (list Event))
| CloseModal
| ActiveEvents (reply : ajax_outcome (list Event))
| LogsFull (reply : ajax_outcome (list LogEntry))
| LogsIncremental (reply : ajax_outcome (list LogEntry))
| LogsClear (reply : ajax_outcome unit)
| RefreshStarted
| OpenLinkStarted
| LoadResumed (ra : Dashboard.fetch_outcome (list Action))
              (re : Dashboard.fetch_outcome (list Event)).

Definition perform (fmt : jsval -> string) (dom : DOM) (s : page) (o : op)
  : page :=
  match o with
  | OpenCreateAction => snd (Dashboard.createAction s)
  | OpenCreateEvent => snd (Dashboard.createEvent s)
  | OpenLink ra re => snd (Dashboard.linkActionEvent ra re s)
  | SubmitCreateAction n reply =>
      snd (Dashboard.createActionForm_submit n reply s)
  | SubmitCreateEvent n reply =>
      snd (Dashboard.createEventForm_submit n reply s)
  | SubmitLink a e reply => snd (Dashboard.linkForm_submit a e reply s)
  | SubmitApiForm k x t reply => snd (Dashboard.apiForm_submit k x t reply s)
  | SubmitRiskForm m r reply => snd (Dashboard.riskForm_submit m r reply s)
  | Refresh ra re => snd (Dashboard.refreshComponents ra re s)
  | RefreshResumed ra re => snd (Dashboard.refreshComponents_resumed ra re s)
  | CloseModal => snd (Dashboard.closeModal s)
  | ActiveEvents reply => Dashboard.updateActiveEvents reply s
  | LogsFull reply => FullRefresh.getLogData fmt reply s
  | LogsIncremental reply => Incremental.updateLogs fmt dom reply s
  | LogsClear reply => Incremental.clearLogs reply s
  | RefreshStarted => snd (Dashboard.refreshComponents_called s)
  | OpenLinkStarted =>
      snd (Dashboard.bind
             (Dashboard.showModal "Link Action to Event" Dashboard.linkForm)
             (fun _ => Dashboard.loadComponents_called) s)
  | LoadResumed ra re =>
      snd (Dashboard.loadComponents_resumed ra re Dashboard.linkForm_selects s)
  end.

Definition session (fmt : jsval -> string) (dom : DOM) (ops : list op)
  (s : page) : page :=
  fold_left (perform fmt dom) ops s.

(** The response of the last successful tick of a full-refresh run. *)
Definition last_done {A : Type} (replies : list (ajax_outcome A)) : option A :=
  fold_left
    (fun acc reply =>
       match reply with
       | AjaxDone payload => Some payload
       | AjaxFail _ _ _ _ => acc
       end)
    replies None.

(** The successful ticks of the incremental poller, one per response. *)
Definition ticks (responses : list (list LogEntry)) : list Incremental.event :=
  map (fun logs => Incremental.Tick (AjaxDone logs)) responses.

Definition sample_accepted : Dashboard.fetch_outcome unit :=
  inr {| Dashboard.status := 200; Dashboard.body_text := "";
         Dashboard.body_json := None |}.

Definition sample_refused : Dashboard.fetch_outcome unit :=
  inr {| Dashboard.status := 400; Dashboard.body_text := "name taken";
         Dashboard.body_json := None |}.

Definition sample_actions_response : Dashboard.Response (list Action) :=
  {| Dashboard.status := 200; Dashboard.body_text := "";
     Dashboard.body_json := Some [sample_action] |}.

Definition sample_events_response : Dashboard.Response (list Event) :=
  {| Dashboard.status := 200; Dashboard.body_text := "";
     Dashboard.body_json := Some [sample_event] |}.

(** A body that parses, under an error status. *)
Definition sample_actions_error_response : Dashboard.Response (list Action) :=
  {| Dashboard.status := 500; Dashboard.body_text := "Internal Server Error";
     Dashboard.body_json := Some [sample_action] |}.

(** ** Outcomes of the form handlers *)

(** What a handler of one of the three modal forms leaves when the POST
    [post] was accepted. *)
Definition form_accepted (post : request) (ok_text : string) (s : page)
  : (Dashboard.JsError + unit) * page :=
  Dashboard.closeModal
    (send Dashboard.events_request
       (send Dashboard.actions_request
          (Dashboard.showAlert "success" ok_text (send post s)))).

(** What any form handler leaves when the POST failed. *)
Definition form_failed (post : request) (text : string) (s : page)
  : (Dashboard.JsError + unit) * page :=
  (inr tt, Dashboard.showAlert "danger" text (send post s)).

(** ** Reading what is sent and what is shown *)

(** The request of [fetch(url)]. *)
Definition http_get (url : string) : request := {|
  req_method := "GET"; req_url := url; req_data := [];
  req_headers := []; req_body := None |}.

(** The request of a [fetch] with method POST, the JSON content type and
    [JSON.stringify(obj)] as body. *)
Definition http_post_json (url : string) (obj : list (string * jsval))
  : request := {|
  req_method := "POST"; req_url := url; req_data := [];
  req_headers := [("Content-Type", "application/json")];
  req_body := Some obj |}.

(** How the markup of an alert of a kind ([success], [danger]) begins. *)
Definition alert_opening (kind : string) : string :=
  nl ++ "        <div class=" ++ dq ++ "alert alert-" ++ kind ++
  " alert-dismissible fade show" ++ dq ++ " role=" ++ dq ++ "alert" ++ dq ++
  ">" ++ nl.

(** The markup [shown], a child of [#alerts], is an alert of the kind and
    [text] is in it. *)
Definition shows_alert (kind text shown : string) : Prop :=
  String.prefix (alert_opening kind) shown = true
  /\ includes text shown = true.

(** What the submit handler of a modal form does, as seen on the page [s]
    it started from, [url] and [body] being those of its POST: it returns
    normally, leaves the tables and the log alone and puts exactly one more
    alert on the page.  If the POST was accepted that alert is a success
    alert showing [ok_text], the two registry requests are sent after the
    POST and the tracked modal is hidden; otherwise it is a danger alert
    showing [err_prefix] followed by the failure's text, nothing but the
    POST is sent and the modal is as it was. *)
Definition modal_form_outcome (result : (Dashboard.JsError + unit) * page)
  (s : page) (url : string) (body : list (string * jsval))
  (ok_text err_prefix : string) (reply : Dashboard.fetch_outcome unit)
  : Prop :=
  fst result = inr tt
  /\ actionsTable (snd result) = actionsTable s
  /\ eventsTable (snd result) = eventsTable s
  /\ logContainer (snd result) = logContainer s
  /\ exists shown : string,
       alerts (snd result) = (alerts s ++ [shown])%list
       /\ if accepted reply
          then shows_alert "success" ok_text shown
               /\ network (snd result)
                  = (network s ++ [http_post_json url body;
                                   http_get "/api/actions";
                                   http_get "/api/events"])%list
               /\ currentModal (snd result)
                  = option_map Dashboard.Modal_hide (currentModal s)
          else shows_alert "danger" (err_prefix ++ failure_text reply)%string
                           shown
               /\ includes (failure_text reply) shown = true
               /\ network (snd result)
                  = (network s ++ [http_post_json url body])%list
               /\ currentModal (snd result) = currentModal s.

(** The same for a settings form, which has no modal and refreshes
    nothing: the page afterwards is the page before with one more request,
    the POST, and one more alert. *)
Definition settings_form_outcome (result : (Dashboard.JsError + unit) * page)
  (s : page) (url : string) (body : list (string * jsval))
  (ok_text err_prefix : string) (reply : Dashboard.fetch_outcome unit)
  : Prop :=
  fst result = inr tt
  /\ exists shown : string,
       snd result
       = set_alerts (alerts s ++ [shown])%list
           (set_network (network s ++ [http_post_json url body])%list s)
       /\ if accepted reply
          then shows_alert "success" ok_text shown
          else shows_alert "danger" (err_prefix ++ failure_text reply)%string
                           shown
               /\ includes (failure_text reply) shown = true.

(** ** What one operation may change *)

(** The modal a call of [showModal] tracks. *)
Definition shown_modal : Modal :=
  {| modal_element := "#componentModal"; isShown := true |}.

(** How far an operation may move the page from [s] to [s']: it adds at
    most one alert, at most three requests and some console lines, removing
    none; the tracked modal is the same, or the same one hidden, or a
    freshly shown one. *)
Definition footprint (s s' : page) : Prop :=
  (exists extra, alerts s' = (alerts s ++ extra)%list
                 /\ List.length extra <= 1)
  /\ (exists reqs, network s' = (network s ++ reqs)%list
                   /\ List.length reqs <= 3)
  /\ (exists lines, console s' = (console s ++ lines)%list)
  /\ (currentModal s' = currentModal s
      \/ currentModal s' = option_map Dashboard.Modal_hide (currentModal s)
      \/ currentModal s' = Some shown_modal).

(** The tracked modal, if any, is an instance for [#componentModal]. *)
Definition modal_ok (m : option Modal) : Prop :=
  match m with
  | None => True
  | Some m => modal_element m = "#componentModal"
  end.

(** * Properties *)

(** ** Strings *)

Lemma prefix_app (x b : string) : String.prefix x (x ++ b) = true.
Proof.
  induction x as [|c x IH].
  - destruct b; reflexivity.
  - change (String c x ++ b) with (String c (x ++ b)).
    cbn [String.prefix].
    destruct (ascii_dec c c) as [_|n]; [exact IH | now elim n].
Qed.

Lemma includes_prefix (x hay : string) :
  String.prefix x hay = true -> includes x hay = true.
Proof.
  intros H. destruct hay; simpl in *; rewrite H; reflexivity.
Qed.

Lemma includes_app (a x b : string) : includes x (a ++ x ++ b) = true.
Proof.
  induction a as [|c a IH].
  - change ("" ++ x ++ b) with (x ++ b).
    apply includes_prefix, prefix_app.
  - change ((String c a ++ x ++ b)) with (String c (a ++ x ++ b)).
    simpl. rewrite IH. apply orb_true_r.
Qed.

Lemma includes_suffix (a x : string) : includes x (a ++ x) = true.
Proof.
  replace (a ++ x) with (a ++ x ++ "").
  - apply includes_app.
  - f_equal. induction x; simpl; congruence.
Qed.

Lemma append_inv_head (a x y : string) :
  (a ++ x) = (a ++ y) -> x = y.
Proof.
  induction a as [|c a IH]; cbn [append]; intros H.
  - exact H.
  - injection H as H. apply IH, H.
Qed.

Lemma includes_skip (a x r : string) :
  includes x r = true -> includes x (a ++ r)%string = true.
Proof.
  intros H. induction a as [|c a IH]; cbn [append].
  - exact H.
  - cbn [includes]. rewrite IH. apply orb_true_r.
Qed.

Lemma prefix_app_l (x p r : string) :
  String.prefix x p = true -> String.prefix x (p ++ r)%string = true.
Proof.
  revert p. induction x as [|c x IH]; intros p H.
  - destruct (p ++ r)%string; reflexivity.
  - destruct p as [|d p]; cbn [String.prefix] in H; [discriminate|].
    cbn [append String.prefix].
    destruct (ascii_dec c d); [apply IH, H | discriminate].
Qed.

Lemma includes_app_l (x p r : string) :
  includes x p = true -> includes x (p ++ r)%string = true.
Proof.
  induction p as [|c p IH]; intros H.
  - cbn [includes] in H. rewrite orb_false_r in H.
    destruct x; [|discriminate]. destruct ("" ++ r)%string; reflexivity.
  - cbn [includes] in H. apply orb_true_iff in H as [H|H].
    + apply includes_prefix. apply prefix_app_l, H.
    + cbn [append includes]. rewrite (IH H). apply orb_true_r.
Qed.

Lemma includes_line (x : string) (indent : nat) (text rest : string) :
  includes x text = true ->
  includes x (line indent text ++ rest)%string = true.
Proof.
  intros H. apply includes_app_l. unfold line.
  apply includes_skip, includes_app_l, H.
Qed.

Lemma includes_refl (x : string) : includes x x = true.
Proof. exact (includes_suffix "" x). Qed.

Local Open Scope list_scope.

(** ** Full-refresh rendering *)

Section FullRefreshFacts.

Variable fmt : jsval -> string.

Lemma full_append_fold (logs : list LogEntry) (s : page) :
  fold_left
    (fun s1 log =>
       set_logContainer (logContainer s1 ++ [FullRefresh.log_element fmt log]) s1)
    logs s
  = set_logContainer
      (logContainer s ++ map (FullRefresh.log_element fmt) logs) s.
Proof.
  revert s. induction logs as [|log logs IH]; intros s; simpl.
  - rewrite app_nil_r. destruct s; reflexivity.
  - rewrite IH. unfold set_logContainer; simpl.
    rewrite <- app_assoc. reflexivity.
Qed.

Lemma full_updateLogs_eq (logs : list LogEntry) (s : page) :
  FullRefresh.updateLogs fmt logs s
  = set_logContainer (map (FullRefresh.log_element fmt) logs) s.
Proof.
  unfold FullRefresh.updateLogs. rewrite full_append_fold. reflexivity.
Qed.

Lemma full_tick_done (xs : list LogEntry) (s : page) :
  FullRefresh.getLogData fmt (AjaxDone xs) s
  = set_logContainer (map (FullRefresh.log_element fmt) (firstn 20 (rev xs)))
      (send (ajax_request (FullRefresh.logs_request fmt)) s).
Proof.
  unfold FullRefresh.getLogData, ajax. simpl. apply full_updateLogs_eq.
Qed.

Lemma full_tick_cap (reply : ajax_outcome (list LogEntry)) (s : page) :
  List.length (logContainer s) <= 20 ->
  List.length (logContainer (FullRefresh.getLogData fmt reply s)) <= 20.
Proof.
  intros H. destruct reply as [xs|st body ts err].
  - rewrite full_tick_done. cbn [logContainer set_logContainer].
    rewrite length_map. apply firstn_le_length.
  - exact H.
Qed.

End FullRefreshFacts.

(** ** Searching the document *)

Lemma keep_log_entries_in_element (room : nat) (tag class : string)
  (children : list node) :
  keep_log_entries_in room (Element tag class children)
  = if is_log_entry class
    then match room with
         | O => []
         | S remaining =>
             [Element tag class (keep_log_entries remaining children)]
         end
    else [Element tag class (keep_log_entries room children)].
Proof.
  cbn [keep_log_entries_in].
  assert (Hfix : forall nodes r,
             (fix among (room0 : nat) (nodes0 : list node) {struct nodes0}
                : list node :=
                match nodes0 with
                | [] => []
                | c :: rest =>
                    keep_log_entries_in room0 c
                    ++ among (room0 - log_entries_in c) rest
                end) r nodes
             = keep_log_entries r nodes).
  { induction nodes as [|c rest IH]; intros r; [reflexivity|].
    cbn [keep_log_entries]. rewrite IH. reflexivity. }
  rewrite !Hfix. reflexivity.
Qed.

Lemma log_entries_cons (n : node) (nodes : list node) :
  log_entries (n :: nodes) = log_entries_in n + log_entries nodes.
Proof. reflexivity. Qed.

Lemma log_entries_app (a b : list node) :
  log_entries (a ++ b) = log_entries a + log_entries b.
Proof. unfold log_entries. rewrite map_app, list_sum_app. reflexivity. Qed.

Lemma log_entries_in_element (tag class : string) (children : list node) :
  log_entries_in (Element tag class children)
  = (if is_log_entry class then 1 else 0) + log_entries children.
Proof. reflexivity. Qed.

(** What stays has as many [.log-entry] elements as there was room for. *)
Lemma keep_log_entries_in_count (n : node) :
  forall room,
    log_entries (keep_log_entries_in room n) = Nat.min room (log_entries_in n).
Proof.
  induction n as [tag class children IH|text] using node_forall_ind;
    intros room.
  - assert (Hforest : forall r,
               log_entries (keep_log_entries r children)
               = Nat.min r (log_entries children)).
    { induction IH as [|c rest Hc _ IHrest]; intros r.
      - cbn. lia.
      - cbn [keep_log_entries]. rewrite log_entries_app, log_entries_cons.
        rewrite Hc, IHrest. lia. }
    rewrite keep_log_entries_in_element, log_entries_in_element.
    destruct (is_log_entry class) eqn:Hclass.
    + destruct room as [|remaining]; [reflexivity|].
      rewrite log_entries_cons, log_entries_in_element, Hclass, Hforest.
      change (log_entries []) with 0. lia.
    + rewrite log_entries_cons, log_entries_in_element, Hclass, Hforest.
      change (log_entries []) with 0. lia.
  - cbn. lia.
Qed.

Lemma keep_log_entries_count (nodes : list node) :
  forall room,
    log_entries (keep_log_entries room nodes)
    = Nat.min room (log_entries nodes).
Proof.
  induction nodes as [|c rest IH]; intros room.
  - cbn. lia.
  - cbn [keep_log_entries]. rewrite log_entries_app, log_entries_cons.
    rewrite keep_log_entries_in_count, IH. lia.
Qed.

Lemma keep_log_entries_app (a b : list node) :
  forall room,
    keep_log_entries room (a ++ b)
    = keep_log_entries room a ++ keep_log_entries (room - log_entries a) b.
Proof.
  induction a as [|c rest IH]; intros room.
  - cbn [app keep_log_entries]. unfold log_entries. cbn [map list_sum].
    rewrite Nat.sub_0_r. reflexivity.
  - cbn [app keep_log_entries]. rewrite IH, log_entries_cons, <- app_assoc.
    rewrite Nat.sub_add_distr. reflexivity.
Qed.

(** Nothing is removed where there is room for every entry. *)
Lemma keep_log_entries_in_all (n : node) :
  forall room,
    log_entries_in n <= room -> keep_log_entries_in room n = [n].
Proof.
  induction n as [tag class children IH|text] using node_forall_ind;
    [|intros; reflexivity].
  assert (Hforest : forall r,
             log_entries children <= r -> keep_log_entries r children = children).
  { induction IH as [|c rest Hc _ IHrest]; intros r Hr; [reflexivity|].
    rewrite log_entries_cons in Hr. cbn [keep_log_entries].
    rewrite Hc by lia. rewrite IHrest by lia. reflexivity. }
  intros room Hroom.
  rewrite keep_log_entries_in_element.
  rewrite log_entries_in_element in Hroom.
  destruct (is_log_entry class).
  - destruct room as [|remaining]; [lia|]. rewrite Hforest by lia. reflexivity.
  - rewrite Hforest by lia. reflexivity.
Qed.

Lemma keep_log_entries_all (nodes : list node) :
  forall room,
    log_entries nodes <= room -> keep_log_entries room nodes = nodes.
Proof.
  induction nodes as [|c rest IH]; intros room Hroom; [reflexivity|].
  rewrite log_entries_cons in Hroom. cbn [keep_log_entries].
  rewrite keep_log_entries_in_all by lia. rewrite IH by lia. reflexivity.
Qed.

(** Removing twice is removing once, with the smaller room. *)
Lemma keep_log_entries_in_twice (n : node) :
  forall r1 r2,
    keep_log_entries r1 (keep_log_entries_in r2 n)
    = keep_log_entries_in (Nat.min r1 r2) n.
Proof.
  induction n as [tag class children IH|text] using node_forall_ind;
    [|intros; cbn; reflexivity].
  assert (Hforest : forall a b,
             keep_log_entries a (keep_log_entries b children)
             = keep_log_entries (Nat.min a b) children).
  { induction IH as [|c rest Hc _ IHrest]; intros a b; [reflexivity|].
    cbn [keep_log_entries]. rewrite keep_log_entries_app, Hc.
    rewrite keep_log_entries_in_count, IHrest.
    f_equal. f_equal. lia. }
  intros r1 r2.
  rewrite !keep_log_entries_in_element.
  destruct (is_log_entry class) eqn:Hclass.
  - destruct r2 as [|b2].
    + rewrite Nat.min_0_r. reflexivity.
    + cbn [keep_log_entries]. rewrite keep_log_entries_in_element, Hclass.
      destruct r1 as [|b1]; [reflexivity|].
      cbn [Nat.min app]. rewrite Hforest. reflexivity.
  - cbn [keep_log_entries]. rewrite keep_log_entries_in_element, Hclass.
    rewrite Hforest. reflexivity.
Qed.

Lemma keep_log_entries_twice (nodes : list node) :
  forall r1 r2,
    keep_log_entries r1 (keep_log_entries r2 nodes)
    = keep_log_entries (Nat.min r1 r2) nodes.
Proof.
  induction nodes as [|c rest IH]; intros r1 r2; [reflexivity|].
  cbn [keep_log_entries]. rewrite keep_log_entries_app.
  rewrite keep_log_entries_in_twice, keep_log_entries_in_count, IH.
  f_equal. f_equal. lia.
Qed.

(** Putting new nodes on top of a list that was cut, and cutting again, is
    cutting once with everything in place. *)
Lemma keep_log_entries_on_top (room : nat) (top rest : list node) :
  keep_log_entries room (top ++ keep_log_entries room rest)
  = keep_log_entries room (top ++ rest).
Proof.
  rewrite !keep_log_entries_app, keep_log_entries_twice.
  f_equal. f_equal. lia.
Qed.

(** ** Incremental rendering *)

Section IncrementalFacts.

Variable fmt : jsval -> string.
Variable dom : DOM.

Lemma prepend_fold (logs : list LogEntry) (s : page) :
  fold_left
    (fun st log =>
       Incremental.prepend dom (Incremental.createLogEntry fmt log) st)
    logs s
  = set_logContainer (fragments fmt dom logs ++ logContainer s) s.
Proof.
  unfold fragments. revert s.
  induction logs as [|log logs IH]; intros s; cbn [fold_left rev].
  - destruct s; reflexivity.
  - rewrite IH. unfold Incremental.prepend, set_logContainer.
    cbn [logContainer alerts actionsTable eventsTable modalTitle modalBody
         currentModal lastLogTimestamp console network].
    rewrite map_app, concat_app. cbn [map concat].
    rewrite app_nil_r, <- app_assoc. reflexivity.
Qed.

Lemma last_event_time_snoc (front : list LogEntry) (lst : LogEntry) :
  Incremental.last_event_time (front ++ [lst]) = event_time lst.
Proof.
  unfold Incremental.last_event_time.
  rewrite length_app. simpl.
  replace (List.length front + 1 - 1) with (List.length front) by lia.
  rewrite nth_error_app2 by lia.
  rewrite Nat.sub_diag. reflexivity.
Qed.

(** The success callback on a non-empty response, in closed form. *)
Lemma updateLogs_success_nonempty (logs : list LogEntry) (s : page) :
  logs <> [] ->
  Incremental.updateLogs_success fmt dom logs s
  = set_logContainer
      (keep_log_entries (100 - entries_above dom)
         (fragments fmt dom logs ++ logContainer s))
      (set_lastLogTimestamp (Incremental.last_event_time logs) s).
Proof.
  intros Hne. unfold Incremental.updateLogs_success.
  destruct logs as [|l logs]; [congruence|].
  cbn [List.length Nat.ltb Nat.leb].
  rewrite prepend_fold. reflexivity.
Qed.

Lemma incremental_step_cap (e : Incremental.event) (s : page) :
  log_entries (logContainer s) <= 100 ->
  log_entries (logContainer (Incremental.step fmt dom s e)) <= 100.
Proof.
  intros H. destruct e as [[logs|st body ts err]|[u|st body ts err]];
    cbn [Incremental.step].
  - unfold Incremental.updateLogs, ajax. cbn [success Incremental.logs_request].
    destruct logs as [|l logs].
    + exact H.
    + rewrite updateLogs_success_nonempty by discriminate.
      cbn [logContainer set_logContainer].
      rewrite keep_log_entries_count. lia.
  - exact H.
  - cbn. lia.
  - exact H.
Qed.

End IncrementalFacts.

(** ** The incremental poller's request and mark *)

Section IncrementalTick.

Variable fmt : jsval -> string.
Variable dom : DOM.

(** Every tick sends exactly one request: the one built from the mark the
    page has when the tick starts. *)
Lemma incremental_tick_network (reply : ajax_outcome (list LogEntry))
  (s : page) :
  network (Incremental.updateLogs fmt dom reply s)
  = network s ++ [logs_get (if truthy (lastLogTimestamp s)
                            then [("since", lastLogTimestamp s)] else [])].
Proof.
  unfold Incremental.updateLogs, ajax.
  destruct reply as [logs|st body ts err]; cbn [success error Incremental.logs_request].
  - destruct logs as [|l logs].
    + reflexivity.
    + rewrite updateLogs_success_nonempty by discriminate. reflexivity.
  - reflexivity.
Qed.

Lemma incremental_tick_nonempty (logs : list LogEntry) (s : page) :
  logs <> [] ->
  Incremental.updateLogs fmt dom (AjaxDone logs) s
  = set_logContainer
      (keep_log_entries (100 - entries_above dom)
         (fragments fmt dom logs ++ logContainer s))
      (set_lastLogTimestamp (Incremental.last_event_time logs)
         (send (logs_get (if truthy (lastLogTimestamp s)
                          then [("since", lastLogTimestamp s)] else [])) s)).
Proof.
  intros Hne. unfold Incremental.updateLogs, ajax.
  cbn [success Incremental.logs_request].
  rewrite updateLogs_success_nonempty by exact Hne. reflexivity.
Qed.

Lemma quiet_step_mark (e : Incremental.event) (s : page) :
  quiet e = true ->
  lastLogTimestamp (Incremental.step fmt dom s e) = lastLogTimestamp s.
Proof.
  destruct e as [[[|l logs]|st body ts err]|r]; simpl; intros H;
    try discriminate; reflexivity.
Qed.

Lemma quiet_run_mark (evs : list Incremental.event) (s : page) :
  forallb quiet evs = true ->
  lastLogTimestamp (Incremental.run fmt dom evs s) = lastLogTimestamp s.
Proof.
  unfold Incremental.run. revert s.
  induction evs as [|e evs IH]; intros s H; cbn [fold_left forallb] in *.
  - reflexivity.
  - apply andb_true_iff in H as [He Hevs].
    rewrite IH by exact Hevs.
    apply quiet_step_mark, He.
Qed.

(** A mark that JavaScript counts as false (0 or the empty string) is
    treated like no mark: the request has no [since]. *)
Remark falsy_mark_sends_no_since (reply : ajax_outcome (list LogEntry))
  (s : page) :
  truthy (lastLogTimestamp s) = false ->
  network (Incremental.updateLogs fmt dom reply s) = network s ++ [logs_get []].
Proof.
  intros H. rewrite incremental_tick_network, H. reflexivity.
Qed.

End IncrementalTick.

(** C1, as amended.  Incremental poller: after the success callback of a
    tick whose response is non-empty (its last element being [lst]), the
    high-water mark is [lst]'s [event_time]; the mark stays at that value
    through any later ticks that fail or bring an empty response; and every
    poll issued from a page whose mark is that value and is truthy (the test
    the script makes, [lastLogTimestamp ? ... : ...]: not [null], not 0, not
    the empty string) sends [GET /logs] with that value as its [since]
    parameter. *)
Theorem C1_mark_is_last_event_time_and_sent_as_since :
  forall (fmt : jsval -> string) (dom : DOM) (s : page)
         (front : list LogEntry) (lst : LogEntry),
    let s' := Incremental.updateLogs fmt dom (AjaxDone (front ++ [lst])) s in
    lastLogTimestamp s' = event_time lst /\
    (forall evs : list Incremental.event,
        forallb quiet evs = true ->
        lastLogTimestamp (Incremental.run fmt dom evs s') = event_time lst) /\
    (forall (later : page) (reply : ajax_outcome (list LogEntry)),
        lastLogTimestamp later = event_time lst ->
        truthy (lastLogTimestamp later) = true ->
        network (Incremental.updateLogs fmt dom reply later)
        = network later ++ [logs_get [("since", event_time lst)]]).
Proof.
  intros fmt dom s front lst s'.
  assert (Hmark : lastLogTimestamp s' = event_time lst).
  { subst s'. rewrite incremental_tick_nonempty.
    - cbn [lastLogTimestamp set_logContainer set_lastLogTimestamp].
      apply last_event_time_snoc.
    - destruct front; discriminate. }
  split; [exact Hmark|]. split.
  - intros evs Hq. rewrite quiet_run_mark by exact Hq. exact Hmark.
  - intros later reply Heq Hset.
    rewrite incremental_tick_network, Hset, Heq. reflexivity.
Qed.

Lemma C1_witness :
  network
    (Incremental.updateLogs sample_locale sample_dom (AjaxDone [])
       (Incremental.updateLogs sample_locale sample_dom (AjaxDone [sample_log])
          page_load))
  = [logs_get []; logs_get [("since", JStr "2024-01-01T00:00:00Z")]].
Proof.
  exact (proj2 (proj2
           (C1_mark_is_last_event_time_and_sent_as_since
              sample_locale sample_dom page_load [] sample_log))
           (Incremental.updateLogs sample_locale sample_dom
              (AjaxDone [sample_log]) page_load)
           (AjaxDone []) eq_refl eq_refl).
Defined.

(** C1 as the claim states it, the mark being set when it is not [null]:
    false.  A response whose last entry has the timestamp 0 sets the mark
    to 0, and the poll that follows carries no [since]. *)
Lemma C1_counterexample :
  ~ (forall (fmt : jsval -> string) (dom : DOM) (s : page)
            (front : list LogEntry) (lst : LogEntry)
            (later : page) (reply : ajax_outcome (list LogEntry)),
        lastLogTimestamp later
        = lastLogTimestamp
            (Incremental.updateLogs fmt dom (AjaxDone (front ++ [lst])) s) ->
        lastLogTimestamp later <> JNull ->
        network (Incremental.updateLogs fmt dom reply later)
        = network later ++ [logs_get [("since", event_time lst)]]).
Proof.
  intros claim.
  pose (epoch := {| parent := "EventX"; event_time := JNum 0;
                    event_data := "fired"; event_type := None |}).
  specialize (claim sample_locale sample_dom page_load [] epoch
                (Incremental.updateLogs sample_locale sample_dom
                   (AjaxDone ([] ++ [epoch])) page_load)
                (AjaxDone []) eq_refl).
  assert (Hset : lastLogTimestamp
                   (Incremental.updateLogs sample_locale sample_dom
                      (AjaxDone ([] ++ [epoch])) page_load) <> JNull)
    by (cbn; discriminate).
  specialize (claim Hset). cbn in claim. discriminate claim.
Qed.

(** ** Caps on the rendered list *)

Lemma full_run_cap (fmt : jsval -> string)
  (replies : list (ajax_outcome (list LogEntry))) (s : page) :
  List.length (logContainer s) <= 20 ->
  List.length (logContainer (FullRefresh.run fmt replies s)) <= 20.
Proof.
  unfold FullRefresh.run. revert s.
  induction replies as [|r replies IH]; intros s H; cbn [fold_left].
  - exact H.
  - apply IH, full_tick_cap, H.
Qed.

Lemma incremental_run_cap (fmt : jsval -> string) (dom : DOM)
  (evs : list Incremental.event) (s : page) :
  log_entries (logContainer s) <= 100 ->
  log_entries (logContainer (Incremental.run fmt dom evs s)) <= 100.
Proof.
  unfold Incremental.run. revert s.
  induction evs as [|e evs IH]; intros s H; cbn [fold_left].
  - exact H.
  - apply IH, incremental_step_cap, H.
Qed.

(** In the list of the full-refresh poller every child is one log entry
    and holds no other. *)
Lemma full_list_entries (fmt : jsval -> string) (logs : list LogEntry) :
  log_entries (map (FullRefresh.log_element fmt) logs) = List.length logs.
Proof.
  induction logs as [|log logs IH]; [reflexivity|].
  cbn [map List.length]. rewrite log_entries_cons, IH. reflexivity.
Qed.

(** C2. The rendered log list never exceeds the cap of the variant in use.
    Full refresh: a successful tick always leaves at most 20 children, each
    of them one log entry, and from a page with at most 20 every sequence
    of ticks (successful or failed) leaves at most 20.  Incremental, the
    entries being the [.log-entry] elements under [#logContainer]: a tick
    with a non-empty response puts the new fragments on top and removes the
    entries past position 99 of the document, so that as many entries stay
    as there are, up to the room left by the cap (the excess goes from the
    bottom), never more than 100; and from a page with at most 100 entries
    every sequence of ticks and clears leaves at most 100. *)
Theorem C2_rendered_list_within_cap :
  forall (fmt : jsval -> string) (dom : DOM),
    (forall (xs : list LogEntry) (s : page),
        List.length (logContainer (FullRefresh.getLogData fmt (AjaxDone xs) s))
        <= 20
        /\ log_entries
             (logContainer (FullRefresh.getLogData fmt (AjaxDone xs) s))
           = List.length
               (logContainer (FullRefresh.getLogData fmt (AjaxDone xs) s))) /\
    (forall (replies : list (ajax_outcome (list LogEntry))) (s : page),
        List.length (logContainer s) <= 20 ->
        List.length (logContainer (FullRefresh.run fmt replies s)) <= 20) /\
    (forall (logs : list LogEntry) (s : page),
        logs <> [] ->
        let s' := Incremental.updateLogs fmt dom (AjaxDone logs) s in
        logContainer s'
        = keep_log_entries (Incremental.maxLogs - entries_above dom)
            (fragments fmt dom logs ++ logContainer s)
        /\ log_entries (logContainer s')
           = Nat.min (100 - entries_above dom)
               (log_entries (fragments fmt dom logs ++ logContainer s))
        /\ log_entries (logContainer s') <= 100) /\
    (forall (evs : list Incremental.event) (s : page),
        log_entries (logContainer s) <= 100 ->
        log_entries (logContainer (Incremental.run fmt dom evs s)) <= 100).
Proof.
  intros fmt dom. split; [|split; [|split]].
  - intros xs s. rewrite full_tick_done. cbn [logContainer set_logContainer].
    rewrite full_list_entries, length_map. split; [|reflexivity].
    apply firstn_le_length.
  - intros replies s H. apply full_run_cap, H.
  - intros logs s Hne. cbv zeta.
    rewrite incremental_tick_nonempty by exact Hne.
    cbn [logContainer set_logContainer]. split; [reflexivity|].
    rewrite keep_log_entries_count. split; [reflexivity | lia].
  - intros evs s H. apply incremental_run_cap, H.
Qed.

Lemma C2_witness :
  List.length
    (logContainer
       (FullRefresh.run sample_locale
          [AjaxFail 500 "" "error" "Internal Server Error";
           AjaxDone [sample_log; sample_log]]
          page_load)) <= 20
  /\ log_entries
       (logContainer
          (Incremental.run sample_locale nesting_dom
             [Incremental.Tick (AjaxDone [sample_log]);
              Incremental.Clear (AjaxFail 500 "" "error" "Internal Server Error");
              Incremental.Tick (AjaxDone [sample_log; sample_log])]
             page_load)) <= 100
  /\ log_entries
       (logContainer
          (Incremental.updateLogs sample_locale nesting_dom
             (AjaxDone [sample_log]) page_load)) <= 100.
Proof.
  pose proof (C2_rendered_list_within_cap sample_locale nesting_dom)
    as [_ [Hf [Ht Hi]]].
  split; [|split].
  - apply Hf. simpl. lia.
  - apply Hi. cbn. lia.
  - apply Ht. discriminate.
Defined.

(** C5. Full-refresh poller: a tick whose response is [xs] renders exactly
    the first 20 elements of the reverse of [xs], in that order, whatever
    was rendered before: the k-th child of the list is the box of the k-th
    of them, showing its source, its formatted time and its message; when
    [xs] has at most 20 elements that is all of the reverse of [xs]. *)
Theorem C5_full_refresh_renders_first_20_of_reverse :
  forall (fmt : jsval -> string) (xs : list LogEntry) (s : page),
    let box := fun log : LogEntry =>
      Element "div" "log-entry mb-2 p-2 border-bottom"
        [Element "div" "d-flex justify-content-between mb-1"
           [Element "span" "fw-bold text-primary" [TextNode (parent log)];
            Element "span" "text-muted small"
                    [TextNode (fmt (event_time log))]];
         Element "div" "small" [TextNode (event_data log)]] in
    logContainer (FullRefresh.getLogData fmt (AjaxDone xs) s)
    = map (FullRefresh.log_element fmt) (firstn 20 (rev xs))
    /\ (List.length xs <= 20 ->
        logContainer (FullRefresh.getLogData fmt (AjaxDone xs) s)
        = map (FullRefresh.log_element fmt) (rev xs))
    /\ logContainer (FullRefresh.getLogData fmt (AjaxDone xs) s)
       = map box (firstn 20 (rev xs))
    /\ (List.length xs <= 20 ->
        logContainer (FullRefresh.getLogData fmt (AjaxDone xs) s)
        = map box (rev xs)).
Proof.
  intros fmt xs s. cbv zeta. rewrite full_tick_done.
  cbn [logContainer set_logContainer].
  assert (Hall : List.length xs <= 20 -> firstn 20 (rev xs) = rev xs).
  { intros H. apply firstn_all2. rewrite length_rev. exact H. }
  split; [reflexivity|]. split; [intros H; rewrite (Hall H); reflexivity|].
  split; [reflexivity|]. intros H. rewrite (Hall H). reflexivity.
Qed.

Lemma C5_witness :
  logContainer
    (FullRefresh.getLogData sample_locale (AjaxDone [sample_log])
       (Incremental.updateLogs sample_locale sample_dom
          (AjaxDone [sample_log; sample_log]) page_load))
  = [Element "div" "log-entry mb-2 p-2 border-bottom"
       [Element "div" "d-flex justify-content-between mb-1"
          [Element "span" "fw-bold text-primary" [TextNode "EventX"];
           Element "span" "text-muted small"
                   [TextNode "1/1/2024, 12:00:00 AM"]];
        Element "div" "small" [TextNode "fired"]]].
Proof.
  apply (proj2 (proj2 (proj2
           (C5_full_refresh_renders_first_20_of_reverse
              sample_locale [sample_log]
              (Incremental.updateLogs sample_locale sample_dom
                 (AjaxDone [sample_log; sample_log]) page_load))))).
  simpl. lia.
Defined.

(** C10. Incremental poller, empty response: the tick sends its request and
    changes nothing else; in particular the high-water mark and the
    rendered list are as they were. *)
Theorem C10_empty_response_changes_nothing :
  forall (fmt : jsval -> string) (dom : DOM) (s : page),
    let s' := Incremental.updateLogs fmt dom (AjaxDone []) s in
    s' = send (logs_get (if truthy (lastLogTimestamp s)
                         then [("since", lastLogTimestamp s)] else [])) s
    /\ lastLogTimestamp s' = lastLogTimestamp s
    /\ logContainer s' = logContainer s
    /\ alerts s' = alerts s
    /\ console s' = console s.
Proof.
  intros fmt dom s. cbv zeta. repeat split; reflexivity.
Qed.
(** ** Clearing the log *)

(** C3. [clearLogs()] sends [POST /logs/clear].  When the backend
    acknowledges, the rendered list is emptied, the high-water mark is reset
    to [null] and a success alert is shown; when the request fails, the
    rendered list and the mark are as before and a danger alert is shown. *)
Theorem C3_clearLogs_clears_only_on_success :
  forall (reply : ajax_outcome unit) (s : page),
    let s' := Incremental.clearLogs reply s in
    network s' = network s ++ [logs_clear_post] /\
    match reply with
    | AjaxDone _ =>
        logContainer s' = [] /\
        lastLogTimestamp s' = JNull /\
        alerts s'
        = alerts s ++ [Dashboard.alert_markup "success" "Logs cleared successfully"]
    | AjaxFail _ _ _ errorThrown =>
        logContainer s' = logContainer s /\
        lastLogTimestamp s' = lastLogTimestamp s /\
        alerts s'
        = alerts s ++ [Dashboard.alert_markup "danger"
                         ("Error clearing logs: " ++ errorThrown)%string]
    end.
Proof.
  intros reply s. cbv zeta.
  destruct reply as [u|st body ts err]; repeat split; reflexivity.
Qed.

(** ** Failed log fetches *)

(** What the next tick renders and records depends only on the rendered
    list and the mark. *)
Lemma incremental_tick_view (fmt : jsval -> string) (dom : DOM)
  (reply : ajax_outcome (list LogEntry)) (s1 s2 : page) :
  logContainer s1 = logContainer s2 ->
  lastLogTimestamp s1 = lastLogTimestamp s2 ->
  logContainer (Incremental.updateLogs fmt dom reply s1)
  = logContainer (Incremental.updateLogs fmt dom reply s2)
  /\ lastLogTimestamp (Incremental.updateLogs fmt dom reply s1)
     = lastLogTimestamp (Incremental.updateLogs fmt dom reply s2).
Proof.
  intros Hc Hm. destruct reply as [[|l logs]|st body ts err].
  - split; assumption.
  - rewrite !incremental_tick_nonempty by discriminate.
    cbn [logContainer lastLogTimestamp set_logContainer set_lastLogTimestamp].
    rewrite Hc. split; reflexivity.
  - split; assumption.
Qed.

Lemma full_tick_view (fmt : jsval -> string)
  (reply : ajax_outcome (list LogEntry)) (s1 s2 : page) :
  logContainer s1 = logContainer s2 ->
  logContainer (FullRefresh.getLogData fmt reply s1)
  = logContainer (FullRefresh.getLogData fmt reply s2).
Proof.
  intros Hc. destruct reply as [xs|st body ts err].
  - rewrite !full_tick_done. reflexivity.
  - exact Hc.
Qed.

(** C6. A failed log fetch, in either poller: the tick sent its one request
    and wrote one line to the console, and that is all.  No alert is added,
    no further request is sent, the rendered list and the high-water mark
    are as before, and the next tick renders and records what it would have
    without the failure. *)
Theorem C6_failed_log_fetch_is_console_only :
  forall (fmt : jsval -> string) (dom : DOM) (st : Z)
         (body textStatus errorThrown : string) (s : page),
    let failed := AjaxFail st body textStatus errorThrown in
    let full := FullRefresh.getLogData fmt failed s in
    let incr := Incremental.updateLogs fmt dom failed s in
    (full = console_error "Error fetching logs:" (LoggedXhr st body)
              (send (logs_get []) s)
     /\ alerts full = alerts s
     /\ network full = network s ++ [logs_get []]
     /\ logContainer full = logContainer s
     /\ lastLogTimestamp full = lastLogTimestamp s
     /\ forall next,
          logContainer (FullRefresh.getLogData fmt next full)
          = logContainer (FullRefresh.getLogData fmt next s))
    /\
    (incr = console_error "Error fetching logs:" (LoggedText errorThrown)
              (send (logs_get (if truthy (lastLogTimestamp s)
                               then [("since", lastLogTimestamp s)] else []))
                    s)
     /\ alerts incr = alerts s
     /\ network incr
        = network s ++ [logs_get (if truthy (lastLogTimestamp s)
                                  then [("since", lastLogTimestamp s)] else [])]
     /\ logContainer incr = logContainer s
     /\ lastLogTimestamp incr = lastLogTimestamp s
     /\ forall next,
          logContainer (Incremental.updateLogs fmt dom next incr)
          = logContainer (Incremental.updateLogs fmt dom next s)
          /\ lastLogTimestamp (Incremental.updateLogs fmt dom next incr)
             = lastLogTimestamp (Incremental.updateLogs fmt dom next s)).
Proof.
  intros fmt dom st body textStatus errorThrown s. cbv zeta. split.
  - repeat (split; [reflexivity|]).
    intros next. apply full_tick_view. reflexivity.
  - repeat (split; [reflexivity|]).
    intros next. apply incremental_tick_view; reflexivity.
Qed.

(** ** Registry refresh *)

(** Runs the sequencing operators of a handler whose definition has been
    unfolded. *)
Ltac js_steps :=
  unfold Dashboard.try_catch, Dashboard.bind, Dashboard.fetch,
    Dashboard.await, Dashboard.throw, Dashboard.ret, Dashboard.act;
  cbv beta iota zeta; cbn [fst snd].

Section Registry.

Import Dashboard.

Lemma actions_rows_fold (actions : list Action) (s : page) :
  fold_left
    (fun s1 action =>
       set_actionsTable (actionsTable s1 ++ [action_row action]) s1)
    actions s
  = set_actionsTable (actionsTable s ++ map action_row actions) s.
Proof.
  revert s. induction actions as [|a actions IH]; intros s; cbn [fold_left map].
  - rewrite app_nil_r. destruct s; reflexivity.
  - rewrite IH. unfold set_actionsTable; cbn [actionsTable].
    rewrite <- app_assoc. reflexivity.
Qed.

Lemma events_rows_fold (events : list Event) (s : page) :
  fold_left
    (fun s1 event =>
       set_eventsTable (eventsTable s1 ++ [event_row event]) s1)
    events s
  = set_eventsTable (eventsTable s ++ map event_row events) s.
Proof.
  revert s. induction events as [|e events IH]; intros s; cbn [fold_left map].
  - rewrite app_nil_r. destruct s; reflexivity.
  - rewrite IH. unfold set_eventsTable; cbn [eventsTable].
    rewrite <- app_assoc. reflexivity.
Qed.

(** An un-awaited call followed by its continuation is the whole function. *)
Lemma refreshComponents_split (ra : fetch_outcome (list Action))
  (re : fetch_outcome (list Event)) (s : page) :
  refreshComponents ra re s
  = bind refreshComponents_called (fun _ => refreshComponents_resumed ra re) s.
Proof.
  unfold refreshComponents, refreshComponents_called, refreshComponents_resumed.
  js_steps.
  destruct (Promise_all (then_json ra) (then_json re)); reflexivity.
Qed.

(** When both fetches deliver, both tables are rebuilt from the answers. *)
Lemma refreshComponents_rebuilds (ra : Response (list Action))
  (re : Response (list Event)) (actions : list Action) (events : list Event)
  (s : page) :
  body_json ra = Some actions ->
  body_json re = Some events ->
  refreshComponents (inr ra) (inr re) s
  = (inr tt,
     set_eventsTable (map event_row events)
       (set_actionsTable (map action_row actions)
          (send events_request (send actions_request s)))).
Proof.
  intros Ha He.
  unfold refreshComponents, updateActionsTable, updateEventsTable, then_json,
    Promise_all.
  rewrite Ha, He. js_steps.
  rewrite actions_rows_fold, events_rows_fold. reflexivity.
Qed.

Lemma failed_fetch_rejects {A B : Type} (p : fetch_outcome A)
  (q : fetch_outcome B) :
  fetch_fails p = true \/ fetch_fails q = true ->
  exists e, Promise_all (then_json p) (then_json q) = inl e.
Proof.
  unfold fetch_fails, then_json, Promise_all.
  intros [H|H]; destruct p as [e|r]; destruct q as [e'|r'];
    try destruct (body_json r); try destruct (body_json r');
    try discriminate; eexists; reflexivity.
Qed.

End Registry.

(** C4. Registry refresh on failure: when the fetch of [/api/actions] or of
    [/api/events] fails, or its body cannot be parsed, [refreshComponents()]
    returns normally having sent its two requests and appended exactly one
    alert, the danger alert "Error refreshing components"; the actions table
    and the events table hold what they held before the call. *)
Theorem C4_refresh_failure_leaves_tables :
  forall (ra : Dashboard.fetch_outcome (list Action))
         (re : Dashboard.fetch_outcome (list Event)) (s : page),
    fetch_fails ra = true \/ fetch_fails re = true ->
    let result := Dashboard.refreshComponents ra re s in
    fst result = inr tt /\
    snd result
    = Dashboard.showAlert "danger" "Error refreshing components"
        (send Dashboard.events_request (send Dashboard.actions_request s)) /\
    alerts (snd result)
    = alerts s ++ [Dashboard.alert_markup "danger" "Error refreshing components"] /\
    actionsTable (snd result) = actionsTable s /\
    eventsTable (snd result) = eventsTable s.
Proof.
  intros ra re s Hfail. cbv zeta.
  destruct (failed_fetch_rejects ra re Hfail) as [e He].
  unfold Dashboard.refreshComponents. js_steps.
  rewrite He. repeat split; reflexivity.
Qed.

Lemma C4_witness :
  actionsTable
    (snd (Dashboard.refreshComponents sample_network_failure sample_events_reply
            (snd (Dashboard.refreshComponents sample_actions_reply
                    sample_events_reply page_load))))
  = [Dashboard.action_row sample_action]
  /\ eventsTable
       (snd (Dashboard.refreshComponents sample_network_failure
               sample_events_reply
               (snd (Dashboard.refreshComponents sample_actions_reply
                       sample_events_reply page_load))))
     = [Dashboard.event_row sample_event].
Proof.
  pose proof
    (C4_refresh_failure_leaves_tables sample_network_failure
       sample_events_reply
       (snd (Dashboard.refreshComponents sample_actions_reply
               sample_events_reply page_load))
       (or_introl eq_refl)) as [_ [_ [_ [Ha He]]]].
  split.
  - exact (eq_trans Ha eq_refl).
  - exact (eq_trans He eq_refl).
Defined.

(** ** Forms *)

Lemma danger_is_not_success (m m' : string) :
  Dashboard.alert_markup "danger" m <> Dashboard.alert_markup "success" m'.
Proof.
  unfold Dashboard.alert_markup, line, attr, nl, dq.
  cbn [spaces append ascii_of_nat]. intros H. discriminate H.
Qed.

Lemma closeModal_frame (s : page) :
  fst (Dashboard.closeModal s) = inr tt
  /\ alerts (snd (Dashboard.closeModal s)) = alerts s
  /\ network (snd (Dashboard.closeModal s)) = network s
  /\ currentModal (snd (Dashboard.closeModal s))
     = option_map Dashboard.Modal_hide (currentModal s).
Proof.
  unfold Dashboard.closeModal.
  destruct (currentModal s) as [m|] eqn:Hm; cbn [fst snd option_map].
  - repeat split; reflexivity.
  - repeat split; try reflexivity. exact Hm.
Qed.

(** The handler when the backend accepted the new action: alert, refresh
    requests, then [closeModal()]. *)
Lemma createActionForm_submit_created (actionName : string)
  (r : Dashboard.Response unit) (s : page) :
  Dashboard.ok r = true ->
  Dashboard.createActionForm_submit actionName (inr r) s
  = Dashboard.closeModal
      (send Dashboard.events_request
         (send Dashboard.actions_request
            (Dashboard.showAlert "success"
               ("Action " ++ actionName ++ " created successfully!")%string
               (send (Dashboard.create_action_request actionName) s)))).
Proof.
  intros Hok.
  unfold Dashboard.createActionForm_submit, Dashboard.refreshComponents_called.
  js_steps. rewrite Hok. js_steps. unfold Dashboard.closeModal.
  match goal with
  | |- context [match ?c with Some _ => _ | None => _ end] => destruct c
  end; reflexivity.
Qed.


(** The markup [showAlert] builds begins as an alert of its kind does and
    has the message in it. *)
Lemma alert_markup_includes (kind x text : string) :
  includes x text = true ->
  includes x (Dashboard.alert_markup kind text) = true.
Proof.
  intros H. unfold Dashboard.alert_markup.
  apply includes_skip, includes_skip, includes_line, H.
Qed.

Lemma success_alert_shown (text : string) :
  shows_alert "success" text (Dashboard.alert_markup "success" text).
Proof.
  split; [reflexivity | apply alert_markup_includes, includes_refl].
Qed.

Lemma danger_alert_shown (text : string) :
  shows_alert "danger" text (Dashboard.alert_markup "danger" text).
Proof.
  split; [reflexivity | apply alert_markup_includes, includes_refl].
Qed.

(** C7. Create-action flow, for the submitted name [actionName] and a
    received response [r] to [POST /api/action/create].  When [r] is 2xx:
    the handler puts one more alert on the page, a success alert, and the
    name is in it; it sends the POST (method, JSON content type and the name
    as body), then [GET /api/actions] and [GET /api/events] (the registry
    refresh); and it hides the tracked modal (the one [createAction()]
    opened is then not shown).  When [r] is not 2xx: the one alert put on
    the page is a danger alert and the body of [r] is in it, nothing but the
    POST is sent and the modal is as it was. *)
Theorem C7_create_action_flow :
  forall (actionName : string) (r : Dashboard.Response unit) (s : page),
    let result := Dashboard.createActionForm_submit actionName (inr r) s in
    let created := ("Action " ++ actionName ++ " created successfully!")%string in
    let failed := ("Error creating action: " ++ Dashboard.body_text r)%string in
    let post :=
      {| req_method := "POST"; req_url := "/api/action/create";
         req_data := [];
         req_headers := [("Content-Type", "application/json")];
         req_body := Some [("name", JStr actionName)] |} in
    let get := fun url : string =>
      {| req_method := "GET"; req_url := url; req_data := [];
         req_headers := []; req_body := None |} in
    let opening := fun kind : string =>
      (nl ++ "        <div class=" ++ dq ++ "alert alert-" ++ kind ++
       " alert-dismissible fade show" ++ dq ++ " role=" ++ dq ++ "alert" ++
       dq ++ ">" ++ nl)%string in
    (Dashboard.ok r = true ->
       fst result = inr tt /\
       alerts (snd result)
       = alerts s ++ [Dashboard.alert_markup "success" created] /\
       includes actionName created = true /\
       network (snd result)
       = network s ++ [Dashboard.create_action_request actionName;
                       Dashboard.get_request "/api/actions";
                       Dashboard.get_request "/api/events"] /\
       currentModal (snd result)
       = option_map Dashboard.Modal_hide (currentModal s) /\
       currentModal
         (snd (Dashboard.createActionForm_submit actionName (inr r)
                 (snd (Dashboard.createAction s))))
       = Some {| modal_element := "#componentModal"; isShown := false |} /\
       network (snd result)
       = network s ++ [post; get "/api/actions"; get "/api/events"] /\
       exists shown : string,
         alerts (snd result) = alerts s ++ [shown]
         /\ String.prefix (opening "success") shown = true
         /\ includes actionName shown = true
         /\ includes created shown = true)
    /\
    (Dashboard.ok r = false ->
       fst result = inr tt /\
       alerts (snd result)
       = alerts s ++ [Dashboard.alert_markup "danger" failed] /\
       includes (Dashboard.body_text r) failed = true /\
       network (snd result)
       = network s ++ [Dashboard.create_action_request actionName] /\
       currentModal (snd result) = currentModal s /\
       actionsTable (snd result) = actionsTable s /\
       network (snd result) = network s ++ [post] /\
       exists shown : string,
         alerts (snd result) = alerts s ++ [shown]
         /\ String.prefix (opening "danger") shown = true
         /\ includes (Dashboard.body_text r) shown = true
         /\ includes failed shown = true).
Proof.
  intros actionName r s. cbv zeta. split; intros Hok.
  - rewrite !createActionForm_submit_created by exact Hok.
    match goal with
    | |- context [Dashboard.closeModal ?p] =>
        destruct (closeModal_frame p) as [Hret [Hal [Hnet Hmod]]]
    end.
    split; [exact Hret|].
    split; [rewrite Hal; reflexivity|].
    split; [apply includes_app|].
    split; [rewrite Hnet; cbn [network send set_network Dashboard.showAlert
                               set_alerts];
            rewrite <- !app_assoc; reflexivity|].
    split; [rewrite Hmod; reflexivity|].
    split.
    { match goal with
      | |- context [Dashboard.closeModal ?p] =>
          destruct (closeModal_frame p) as [_ [_ [_ Hmod']]]
      end.
      rewrite Hmod'. reflexivity. }
    split; [rewrite Hnet; cbn [network send set_network Dashboard.showAlert
                               set_alerts];
            rewrite <- !app_assoc; reflexivity|].
    eexists. split; [rewrite Hal; reflexivity|].
    split; [reflexivity|].
    split; apply alert_markup_includes;
      [apply includes_app | apply includes_refl].
  - unfold Dashboard.createActionForm_submit. js_steps.
    rewrite Hok. js_steps.
    do 7 (split; [first [apply includes_suffix | reflexivity]|]).
    eexists. split; [reflexivity|]. split; [reflexivity|].
    split; apply alert_markup_includes;
      [apply includes_suffix | apply includes_refl].
Qed.

Lemma C7_witness :
  network
    (snd (Dashboard.createActionForm_submit "MyAction"
            (inr {| Dashboard.status := 200; Dashboard.body_text := "";
                    Dashboard.body_json := None |})
            (snd (Dashboard.createAction page_load))))
  = [{| req_method := "POST"; req_url := "/api/action/create";
        req_data := [];
        req_headers := [("Content-Type", "application/json")];
        req_body := Some [("name", JStr "MyAction")] |};
     {| req_method := "GET"; req_url := "/api/actions"; req_data := [];
        req_headers := []; req_body := None |};
     {| req_method := "GET"; req_url := "/api/events"; req_data := [];
        req_headers := []; req_body := None |}]
  /\ exists shown : string,
       alerts
         (snd (Dashboard.createActionForm_submit "MyAction"
                 (inr {| Dashboard.status := 409;
                         Dashboard.body_text := "name taken";
                         Dashboard.body_json := None |})
                 page_load))
       = [shown]
       /\ includes "name taken" shown = true.
Proof.
  split.
  - exact (proj1 (proj2 (proj2 (proj2 (proj2 (proj2 (proj2
             (proj1 (C7_create_action_flow "MyAction"
                       {| Dashboard.status := 200; Dashboard.body_text := "";
                          Dashboard.body_json := None |}
                       (snd (Dashboard.createAction page_load)))
                    eq_refl)))))))).
  - destruct (proj2 (proj2 (proj2 (proj2 (proj2 (proj2 (proj2
                (proj2 (C7_create_action_flow "MyAction"
                          {| Dashboard.status := 409;
                             Dashboard.body_text := "name taken";
                             Dashboard.body_json := None |}
                          page_load)
                       eq_refl))))))))
      as [shown [Hshown [_ [Hbody _]]]].
    exists shown. split; [exact Hshown | exact Hbody].
Defined.

(** C8. Exchange-settings form: when the POST to [/api/settings/binance]
    is answered with a status outside 200..299 and the error text [body],
    the handler puts exactly one more alert on the page; it is a danger
    alert, not a success alert, and the server's text is in it, after
    "Error updating Binance settings: ".  Only the POST was sent. *)
Theorem C8_settings_failure_shows_server_text :
  forall (apiKey apiSecret : string) (testnet : bool)
         (r : Dashboard.Response unit) (s : page),
    Dashboard.ok r = false ->
    let result := Dashboard.apiForm_submit apiKey apiSecret testnet (inr r) s in
    let text :=
      ("Error updating Binance settings: " ++ Dashboard.body_text r)%string in
    let opening := fun kind : string =>
      (nl ++ "        <div class=" ++ dq ++ "alert alert-" ++ kind ++
       " alert-dismissible fade show" ++ dq ++ " role=" ++ dq ++ "alert" ++
       dq ++ ">" ++ nl)%string in
    fst result = inr tt /\
    alerts (snd result) = alerts s ++ [Dashboard.alert_markup "danger" text] /\
    includes (Dashboard.body_text r) text = true /\
    (forall m : string,
        Dashboard.alert_markup "danger" text
        <> Dashboard.alert_markup "success" m) /\
    network (snd result)
    = network s ++ [Dashboard.binance_settings_request apiKey apiSecret testnet]
    /\ network (snd result)
       = network s
         ++ [{| req_method := "POST"; req_url := "/api/settings/binance";
                req_data := [];
                req_headers := [("Content-Type", "application/json")];
                req_body := Some [("apiKey", JStr apiKey);
                                  ("apiSecret", JStr apiSecret);
                                  ("testnet", JBool testnet)] |}]
    /\ exists shown : string,
         alerts (snd result) = alerts s ++ [shown]
         /\ String.prefix (opening "danger") shown = true
         /\ String.prefix (opening "success") shown = false
         /\ includes (Dashboard.body_text r) shown = true
         /\ includes text shown = true.
Proof.
  intros apiKey apiSecret testnet r s Hok. cbv zeta.
  unfold Dashboard.apiForm_submit. js_steps. rewrite Hok. js_steps.
  split; [reflexivity|]. split; [reflexivity|].
  split; [apply includes_suffix|].
  split; [intros m; apply danger_is_not_success|].
  split; [reflexivity|]. split; [reflexivity|].
  eexists. split; [reflexivity|]. split; [reflexivity|].
  split; [reflexivity|].
  split; apply alert_markup_includes;
    [apply includes_suffix | apply includes_refl].
Qed.

Lemma C8_witness :
  exists shown : string,
    alerts
      (snd (Dashboard.apiForm_submit "k" "s" true
              (inr {| Dashboard.status := 400;
                      Dashboard.body_text := "Invalid API key";
                      Dashboard.body_json := None |})
              page_load))
    = [shown]
    /\ includes "Invalid API key" shown = true.
Proof.
  destruct
    (proj2 (proj2 (proj2 (proj2 (proj2 (proj2
       (C8_settings_failure_shows_server_text "k" "s" true
          {| Dashboard.status := 400; Dashboard.body_text := "Invalid API key";
             Dashboard.body_json := None |}
          page_load eq_refl)))))))
    as [shown [Hshown [_ [_ [Hbody _]]]]].
  exists shown. split; [exact Hshown | exact Hbody].
Defined.

(** C9. [closeModal()] hides the tracked modal instance when there is one,
    changing nothing else; when [currentModal] is [null] it returns without
    throwing and leaves the page exactly as it was. *)
Theorem C9_closeModal_hides_or_does_nothing :
  forall s : page,
    (forall m : Modal,
        currentModal s = Some m ->
        Dashboard.closeModal s
        = (inr tt, set_currentModal (Some (Dashboard.Modal_hide m)) s)
        /\ isShown (Dashboard.Modal_hide m) = false
        /\ modal_element (Dashboard.Modal_hide m) = modal_element m)
    /\ (currentModal s = None -> Dashboard.closeModal s = (inr tt, s)).
Proof.
  intros s. unfold Dashboard.closeModal. split.
  - intros m Hm. rewrite Hm. repeat split.
  - intros Hnone. rewrite Hnone. reflexivity.
Qed.

Lemma C9_witness :
  Dashboard.closeModal page_load = (inr tt, page_load)
  /\ Dashboard.closeModal (snd (Dashboard.createAction page_load))
     = (inr tt,
        set_currentModal
          (Some {| modal_element := "#componentModal"; isShown := false |})
          (snd (Dashboard.createAction page_load))).
Proof.
  split.
  - exact (proj2 (C9_closeModal_hides_or_does_nothing page_load) eq_refl).
  - exact (proj1 (proj1 (C9_closeModal_hides_or_does_nothing
                           (snd (Dashboard.createAction page_load)))
                        _ eq_refl)).
Defined.

(** ** Concrete runs *)

(** One log in the response: one rendered entry, showing the source and the
    formatted time. *)
Example full_refresh_one_entry :
  logContainer
    (FullRefresh.getLogData sample_locale (AjaxDone [sample_log]) page_load)
  = [Element "div" "log-entry mb-2 p-2 border-bottom"
       [Element "div" "d-flex justify-content-between mb-1"
          [Element "span" "fw-bold text-primary" [TextNode "EventX"];
           Element "span" "text-muted small"
                   [TextNode "1/1/2024, 12:00:00 AM"]];
        Element "div" "small" [TextNode "fired"]]].
Proof. reflexivity. Qed.

(** The incremental poller puts each entry of a response above the
    previous one: the last entry of the response ends on top. *)
Example incremental_last_entry_on_top :
  let older := {| parent := "A"; event_time := JNum 1; event_data := "one";
                  event_type := Some INFO |} in
  let newer := {| parent := "B"; event_time := JNum 2; event_data := "two";
                  event_type := Some ERROR |} in
  let s := Incremental.updateLogs sample_locale sample_dom
             (AjaxDone [older; newer]) page_load in
  logContainer s
  = [Element "div" "log-entry"
       [TextNode (Incremental.createLogEntry sample_locale newer)];
     Element "div" "log-entry"
       [TextNode (Incremental.createLogEntry sample_locale older)]]
  /\ lastLogTimestamp s = JNum 2
  /\ network (Incremental.updateLogs sample_locale sample_dom (AjaxDone []) s)
     = [logs_get []; logs_get [("since", JNum 2)]].
Proof. repeat split; reflexivity. Qed.

(** A response of 150 entries is cut to the 100 that ended on top. *)
Example incremental_cut_to_100 :
  List.length
    (logContainer
       (Incremental.updateLogs sample_locale sample_dom
          (AjaxDone (repeat sample_log 150)) page_load)) = 100.
Proof. vm_compute. reflexivity. Qed.

(** Sixty entries whose text carries a second [.log-entry] element make 120
    such elements; the 100 first stay, which are those of 50 entries. *)
Example nested_entries_count :
  let s := Incremental.updateLogs sample_locale nesting_dom
             (AjaxDone (repeat sample_log 60)) page_load in
  List.length (logContainer s) = 50 /\ log_entries (logContainer s) = 100.
Proof. vm_compute. split; reflexivity. Qed.

(** A template with 40 log entries of its own ahead of the list leaves room
    for 60. *)
Example entries_above_take_room :
  log_entries
    (logContainer
       (Incremental.updateLogs sample_locale
          {| parseHTML := parseHTML sample_dom; entries_above := 40 |}
          (AjaxDone (repeat sample_log 150)) page_load)) = 60.
Proof. vm_compute. reflexivity. Qed.

(** The class selector looks at the tokens of the attribute. *)
Example class_selector :
  is_log_entry "log-entry mb-2 p-2 border-bottom" = true
  /\ is_log_entry "log-entry" = true
  /\ is_log_entry "log-entry-old" = false
  /\ is_log_entry "mt-1" = false.
Proof. repeat split; reflexivity. Qed.

(** A response of 25 entries: the full-refresh poller shows 20. *)
Example full_refresh_cut_to_20 :
  List.length
    (logContainer
       (FullRefresh.getLogData sample_locale (AjaxDone (repeat sample_log 25))
          page_load)) = 20.
Proof. vm_compute. reflexivity. Qed.

(** Clearing after a poll: the list is empty and the next poll sends no
    [since]. *)
Example clear_then_poll :
  let s1 := Incremental.updateLogs sample_locale sample_dom
              (AjaxDone [sample_log]) page_load in
  let s2 := Incremental.clearLogs (AjaxDone tt) s1 in
  logContainer s2 = []
  /\ network (Incremental.updateLogs sample_locale sample_dom (AjaxDone []) s2)
     = [logs_get []; logs_clear_post; logs_get []].
Proof. split; reflexivity. Qed.

(** An accepted submit and the failing resumption of the refresh it started
    are two turns, and show two alerts. *)
Example accepted_submit_then_failed_refresh :
  List.length
    (alerts
       (session sample_locale sample_dom
          [SubmitCreateAction "MyAction" sample_accepted;
           RefreshResumed sample_network_failure sample_events_reply]
          page_load)) = 2.
Proof. reflexivity. Qed.

(** The alert an HTTP 400 "Invalid API key" produces. *)
Example settings_400_alert :
  alerts
    (snd (Dashboard.apiForm_submit "key" "secret" false
            (inr {| Dashboard.status := 400;
                    Dashboard.body_text := "Invalid API key";
                    Dashboard.body_json := None |})
            page_load))
  = [(nl ++
      "        <div class=" ++ dq ++
      "alert alert-danger alert-dismissible fade show" ++ dq ++ " role=" ++
      dq ++ "alert" ++ dq ++ ">" ++ nl ++
      "            Error updating Binance settings: Invalid API key" ++ nl ++
      "            <button type=" ++ dq ++ "button" ++ dq ++ " class=" ++ dq ++
      "btn-close" ++ dq ++ " data-bs-dismiss=" ++ dq ++ "alert" ++ dq ++
      "></button>" ++ nl ++
      "        </div>" ++ nl ++
      "    ")%string].
Proof. reflexivity. Qed.

(** * Further properties of the dashboard script *)

(** ** The form handlers, for every way the POST can settle *)

Ltac settle_form Hdef :=
  intros; unfold Hdef, Dashboard.refreshComponents_called, form_accepted,
    form_failed, accepted, failure_text;
  match goal with
  | reply : Dashboard.fetch_outcome unit |- _ =>
      destruct reply as [e|r]; js_steps;
      [reflexivity
      | destruct (Dashboard.ok r); js_steps; unfold Dashboard.closeModal;
        try match goal with
            | |- context [match ?c with Some _ => _ | None => _ end] =>
                destruct c
            end; reflexivity]
  end.

Lemma createActionForm_submit_settled (actionName : string)
  (reply : Dashboard.fetch_outcome unit) (s : page) :
  Dashboard.createActionForm_submit actionName reply s
  = if accepted reply
    then form_accepted (Dashboard.create_action_request actionName)
           ("Action " ++ actionName ++ " created successfully!")%string s
    else form_failed (Dashboard.create_action_request actionName)
           ("Error creating action: " ++ failure_text reply)%string s.
Proof. revert actionName reply s. settle_form Dashboard.createActionForm_submit. Qed.

Lemma createEventForm_submit_settled (eventName : string)
  (reply : Dashboard.fetch_outcome unit) (s : page) :
  Dashboard.createEventForm_submit eventName reply s
  = if accepted reply
    then form_accepted (Dashboard.create_event_request eventName)
           ("Event " ++ eventName ++ " created successfully!")%string s
    else form_failed (Dashboard.create_event_request eventName)
           ("Error creating event: " ++ failure_text reply)%string s.
Proof. revert eventName reply s. settle_form Dashboard.createEventForm_submit. Qed.

Lemma linkForm_submit_settled (actionName eventName : string)
  (reply : Dashboard.fetch_outcome unit) (s : page) :
  Dashboard.linkForm_submit actionName eventName reply s
  = if accepted reply
    then form_accepted (Dashboard.link_request actionName eventName)
           "Components linked successfully!" s
    else form_failed (Dashboard.link_request actionName eventName)
           ("Error linking components: " ++ failure_text reply)%string s.
Proof.
  revert actionName eventName reply s. settle_form Dashboard.linkForm_submit.
Qed.

Lemma apiForm_submit_settled (apiKey apiSecret : string) (testnet : bool)
  (reply : Dashboard.fetch_outcome unit) (s : page) :
  Dashboard.apiForm_submit apiKey apiSecret testnet reply s
  = if accepted reply
    then (inr tt,
          Dashboard.showAlert "success" "Binance settings updated successfully!"
            (send (Dashboard.binance_settings_request apiKey apiSecret testnet)
                  s))
    else form_failed (Dashboard.binance_settings_request apiKey apiSecret testnet)
           ("Error updating Binance settings: " ++ failure_text reply)%string s.
Proof.
  revert apiKey apiSecret testnet reply s. settle_form Dashboard.apiForm_submit.
Qed.

Lemma riskForm_submit_settled (maxPosition riskPerTrade : string)
  (reply : Dashboard.fetch_outcome unit) (s : page) :
  Dashboard.riskForm_submit maxPosition riskPerTrade reply s
  = if accepted reply
    then (inr tt,
          Dashboard.showAlert "success" "Risk settings updated successfully!"
            (send (Dashboard.risk_settings_request maxPosition riskPerTrade) s))
    else form_failed (Dashboard.risk_settings_request maxPosition riskPerTrade)
           ("Error updating risk settings: " ++ failure_text reply)%string s.
Proof.
  revert maxPosition riskPerTrade reply s. settle_form Dashboard.riskForm_submit.
Qed.

(** The parts of the page an accepted modal form changes. *)
Lemma form_accepted_effect (post : request) (ok_text : string) (s : page) :
  let result := form_accepted post ok_text s in
  fst result = inr tt
  /\ alerts (snd result) = alerts s ++ [Dashboard.alert_markup "success" ok_text]
  /\ network (snd result)
     = network s ++ [post; Dashboard.actions_request; Dashboard.events_request]
  /\ currentModal (snd result)
     = option_map Dashboard.Modal_hide (currentModal s)
  /\ actionsTable (snd result) = actionsTable s
  /\ eventsTable (snd result) = eventsTable s
  /\ logContainer (snd result) = logContainer s.
Proof.
  cbv zeta. unfold form_accepted, Dashboard.closeModal.
  cbn [currentModal send set_network Dashboard.showAlert set_alerts].
  destruct (currentModal s) as [m|] eqn:Hm;
    cbn [fst snd alerts network currentModal actionsTable eventsTable
         logContainer modalTitle modalBody set_currentModal set_modal
         option_map send set_network Dashboard.showAlert set_alerts];
    rewrite <- ?app_assoc; cbn [app]; rewrite ?Hm;
    repeat split; reflexivity.
Qed.

Lemma modal_form_outcome_intro (result : (Dashboard.JsError + unit) * page)
  (s : page) (url : string) (body : list (string * jsval))
  (ok_text err_prefix : string) (reply : Dashboard.fetch_outcome unit) :
  result = (if accepted reply
            then form_accepted (Dashboard.post_json url body) ok_text s
            else form_failed (Dashboard.post_json url body)
                   (err_prefix ++ failure_text reply)%string s) ->
  modal_form_outcome result s url body ok_text err_prefix reply.
Proof.
  intros ->. unfold modal_form_outcome.
  destruct (accepted reply).
  - destruct (form_accepted_effect (Dashboard.post_json url body) ok_text s)
      as [H1 [H2 [H3 [H4 [H5 [H6 H7]]]]]].
    split; [exact H1|]. split; [exact H5|]. split; [exact H6|].
    split; [exact H7|].
    exists (Dashboard.alert_markup "success" ok_text).
    split; [exact H2|]. split; [apply success_alert_shown|].
    split; [exact H3 | exact H4].
  - unfold form_failed. cbn [fst snd].
    do 4 (split; [reflexivity|]).
    exists (Dashboard.alert_markup "danger"
              (err_prefix ++ failure_text reply)%string).
    split; [reflexivity|]. split; [apply danger_alert_shown|].
    split; [apply alert_markup_includes, includes_suffix|].
    split; reflexivity.
Qed.

Lemma settings_form_outcome_intro
  (result : (Dashboard.JsError + unit) * page)
  (s : page) (url : string) (body : list (string * jsval))
  (ok_text err_prefix : string) (reply : Dashboard.fetch_outcome unit) :
  result = (if accepted reply
            then (inr tt,
                  Dashboard.showAlert "success" ok_text
                    (send (Dashboard.post_json url body) s))
            else form_failed (Dashboard.post_json url body)
                   (err_prefix ++ failure_text reply)%string s) ->
  settings_form_outcome result s url body ok_text err_prefix reply.
Proof.
  intros ->. unfold settings_form_outcome, form_failed.
  destruct (accepted reply); cbn [fst snd]; (split; [reflexivity|]).
  - exists (Dashboard.alert_markup "success" ok_text).
    split; [reflexivity | apply success_alert_shown].
  - exists (Dashboard.alert_markup "danger"
              (err_prefix ++ failure_text reply)%string).
    split; [reflexivity|]. split; [apply danger_alert_shown|].
    apply alert_markup_includes, includes_suffix.
Qed.

(** X1. Create-action form, POST not accepted (the fetch was rejected, or
    the response is not 2xx): the handler returns normally; the page
    afterwards is the page before with one more request, the POST to
    [/api/action/create] carrying the name, and one more alert, which is a
    danger alert with "Error creating action: " and the rejection's message
    or the response body in it.  No registry refresh is sent, and the modal,
    the tables and the log are as they were. *)
Theorem X1_create_action_failure_keeps_form :
  forall (actionName : string) (reply : Dashboard.fetch_outcome unit)
         (s : page),
    accepted reply = false ->
    let result := Dashboard.createActionForm_submit actionName reply s in
    fst result = inr tt
    /\ exists shown : string,
         snd result
         = set_alerts (alerts s ++ [shown])
             (set_network
                (network s
                 ++ [{| req_method := "POST"; req_url := "/api/action/create";
                        req_data := [];
                        req_headers := [("Content-Type", "application/json")];
                        req_body := Some [("name", JStr actionName)] |}])
                s)
         /\ shows_alert "danger"
              ("Error creating action: " ++ failure_text reply)%string shown
         /\ includes (failure_text reply) shown = true.
Proof.
  intros actionName reply s Hno. cbv zeta.
  rewrite createActionForm_submit_settled, Hno. unfold form_failed.
  split; [reflexivity|].
  exists (Dashboard.alert_markup "danger"
            ("Error creating action: " ++ failure_text reply)%string).
  split; [reflexivity|]. split; [apply danger_alert_shown|].
  apply alert_markup_includes, includes_suffix.
Qed.

Lemma X1_witness :
  exists shown : string,
    alerts
      (snd (Dashboard.createActionForm_submit "MyAction" sample_network_failure
              (snd (Dashboard.createAction page_load))))
    = [shown]
    /\ includes "Failed to fetch" shown = true.
Proof.
  destruct (proj2 (X1_create_action_failure_keeps_form "MyAction"
                     sample_network_failure
                     (snd (Dashboard.createAction page_load)) eq_refl))
    as [shown [Hpage [_ Hin]]].
  exists shown. split; [|exact Hin].
  exact (f_equal alerts Hpage).
Defined.

(** X2. Create-event form, for every way the POST to [/api/event/create]
    (JSON body: the name) settles.  Accepted (2xx): the one alert put on the
    page is a success alert with "Event <name> created successfully!" in
    it; [GET /api/actions] and [GET /api/events] follow the POST, and the
    tracked modal is hidden.  Otherwise: the one alert is a danger alert
    with "Error creating event: " and the failure's text in it, nothing but
    the POST is sent, the modal is as before.  The handler never throws and
    never touches the tables or the log itself. *)
Theorem X2_create_event_flow :
  forall (eventName : string) (reply : Dashboard.fetch_outcome unit) (s : page),
    let result := Dashboard.createEventForm_submit eventName reply s in
    modal_form_outcome result s
      "/api/event/create" [("name", JStr eventName)]
      ("Event " ++ eventName ++ " created successfully!")%string
      "Error creating event: " reply
    /\ (accepted reply = true ->
        includes eventName (last (alerts (snd result)) "") = true).
Proof.
  intros eventName reply s. cbv zeta. split.
  - apply modal_form_outcome_intro, createEventForm_submit_settled.
  - intros Hok. rewrite createEventForm_submit_settled, Hok.
    destruct (form_accepted_effect
                (Dashboard.create_event_request eventName)
                ("Event " ++ eventName ++ " created successfully!")%string s)
      as [_ [Hal _]].
    rewrite Hal, last_last.
    apply alert_markup_includes, includes_app.
Qed.

Lemma X2_witness :
  includes "MyEvent"
    (last (alerts
             (snd (Dashboard.createEventForm_submit "MyEvent" sample_accepted
                     page_load))) "") = true.
Proof.
  exact (proj2 (X2_create_event_flow "MyEvent" sample_accepted page_load)
               eq_refl).
Defined.

(** X3. Link form, for every way the POST to [/api/link] settles: the JSON
    body carries the chosen action and event names; accepted, the one alert
    is a success alert with "Components linked successfully!" in it, the
    registry requests follow and the modal is hidden; otherwise the one
    alert is a danger alert with "Error linking components: " and the
    failure's text in it, and nothing else happens. *)
Theorem X3_link_flow :
  forall (actionName eventName : string)
         (reply : Dashboard.fetch_outcome unit) (s : page),
    modal_form_outcome
      (Dashboard.linkForm_submit actionName eventName reply s) s
      "/api/link" [("action", JStr actionName); ("event", JStr eventName)]
      "Components linked successfully!"
      "Error linking components: " reply.
Proof.
  intros. apply modal_form_outcome_intro, linkForm_submit_settled.
Qed.

(** X4. Risk-settings form, for every way the POST to [/api/settings/risk]
    settles: the handler returns normally; the page afterwards is the page
    before with one more request, that POST with the two field values as
    JSON body, and one more alert: a success alert with "Risk settings
    updated successfully!" in it when accepted, else a danger alert with
    "Error updating risk settings: " and the failure's text in it. *)
Theorem X4_risk_form_flow :
  forall (maxPosition riskPerTrade : string)
         (reply : Dashboard.fetch_outcome unit) (s : page),
    settings_form_outcome
      (Dashboard.riskForm_submit maxPosition riskPerTrade reply s) s
      "/api/settings/risk"
      [("maxPosition", JStr maxPosition); ("riskPerTrade", JStr riskPerTrade)]
      "Risk settings updated successfully!"
      "Error updating risk settings: " reply.
Proof.
  intros. apply settings_form_outcome_intro, riskForm_submit_settled.
Qed.

(** X5. Exchange-settings form, for every way the POST settles (accepted,
    refused, or rejected before any response): the page afterwards is the
    page before with one more request, the POST to [/api/settings/binance]
    with the key, the secret and the testnet flag as JSON body, and one
    more alert: a success alert with "Binance settings updated
    successfully!" in it when accepted, else a danger alert with "Error
    updating Binance settings: " and the failure's text in it. *)
Theorem X5_api_form_flow :
  forall (apiKey apiSecret : string) (testnet : bool)
         (reply : Dashboard.fetch_outcome unit) (s : page),
    settings_form_outcome
      (Dashboard.apiForm_submit apiKey apiSecret testnet reply s) s
      "/api/settings/binance"
      [("apiKey", JStr apiKey); ("apiSecret", JStr apiSecret);
       ("testnet", JBool testnet)]
      "Binance settings updated successfully!"
      "Error updating Binance settings: " reply.
Proof.
  intros. apply settings_form_outcome_intro, apiForm_submit_settled.
Qed.

(** ** Registry: refresh, dropdowns, active events *)

Lemma fold_append_map {A B : Type} (f : A -> B) (l : list A) (init : list B) :
  fold_left (fun acc a => acc ++ [f a]) l init = init ++ map f l.
Proof.
  revert init. induction l as [|a l IH]; intros init; cbn [fold_left map].
  - rewrite app_nil_r. reflexivity.
  - rewrite IH, <- app_assoc. reflexivity.
Qed.

Lemma active_rows_fold (events : list Event) (s : page) :
  fold_left
    (fun s1 event =>
       set_eventsTable (eventsTable s1 ++ [Dashboard.active_event_row event]) s1)
    events s
  = set_eventsTable (eventsTable s ++ map Dashboard.active_event_row events) s.
Proof.
  revert s. induction events as [|e events IH]; intros s; cbn [fold_left map].
  - rewrite app_nil_r. destruct s; reflexivity.
  - rewrite IH. unfold set_eventsTable; cbn [eventsTable].
    rewrite <- app_assoc. reflexivity.
Qed.

Lemma updateActiveEvents_done (events : list Event) (s : page) :
  Dashboard.updateActiveEvents (AjaxDone events) s
  = set_eventsTable (map Dashboard.active_event_row events)
      (send (ajax_request Dashboard.active_events_request) s).
Proof.
  unfold Dashboard.updateActiveEvents, ajax.
  cbn [success Dashboard.active_events_request]. cbv zeta.
  rewrite active_rows_fold. reflexivity.
Qed.

(** X6. A registry refresh whose two fetches deliver parseable bodies
    rebuilds both tables from the answers alone: one row per action and per
    event, in the order received, whatever rows were there; it shows no
    alert and leaves the modal alone; repeating it with the same answers
    gives the same tables (rows are never duplicated). *)
Theorem X6_refresh_rebuilds_both_tables :
  forall (ra : Dashboard.Response (list Action))
         (re : Dashboard.Response (list Event))
         (actions : list Action) (events : list Event) (s : page),
    Dashboard.body_json ra = Some actions ->
    Dashboard.body_json re = Some events ->
    let s1 := snd (Dashboard.refreshComponents (inr ra) (inr re) s) in
    let s2 := snd (Dashboard.refreshComponents (inr ra) (inr re) s1) in
    fst (Dashboard.refreshComponents (inr ra) (inr re) s) = inr tt
    /\ actionsTable s1 = map Dashboard.action_row actions
    /\ eventsTable s1 = map Dashboard.event_row events
    /\ List.length (actionsTable s1) = List.length actions
    /\ List.length (eventsTable s1) = List.length events
    /\ alerts s1 = alerts s
    /\ currentModal s1 = currentModal s
    /\ network s1
       = network s ++ [Dashboard.get_request "/api/actions";
                       Dashboard.get_request "/api/events"]
    /\ actionsTable s2 = actionsTable s1
    /\ eventsTable s2 = eventsTable s1.
Proof.
  intros ra re actions events s Ha He. cbv zeta.
  rewrite !(refreshComponents_rebuilds ra re actions events) by assumption.
  cbn [fst snd actionsTable eventsTable alerts currentModal network
       set_eventsTable set_actionsTable send set_network].
  rewrite !length_map, <- app_assoc. repeat split; reflexivity.
Qed.

Lemma X6_witness :
  actionsTable
    (snd (Dashboard.refreshComponents (inr sample_actions_response)
            (inr sample_events_response)
            (snd (Dashboard.refreshComponents (inr sample_actions_response)
                    (inr sample_events_response) page_load))))
  = [Dashboard.action_row sample_action].
Proof.
  pose proof
    (X6_refresh_rebuilds_both_tables sample_actions_response
       sample_events_response [sample_action] [sample_event]
       page_load eq_refl eq_refl) as [_ [Ha [_ [_ [_ [_ [_ [_ [Hi _]]]]]]]]].
  exact (eq_trans Hi Ha).
Defined.

(** X7. The registry refresh never looks at the HTTP status: two answers
    with the same parsed body give the same page whatever their status
    line and raw text, so a parseable body of an error response is rendered
    like a normal one. *)
Theorem X7_refresh_ignores_status :
  forall (ra ra' : Dashboard.Response (list Action))
         (re re' : Dashboard.Response (list Event)) (s : page),
    Dashboard.body_json ra = Dashboard.body_json ra' ->
    Dashboard.body_json re = Dashboard.body_json re' ->
    Dashboard.refreshComponents (inr ra) (inr re) s
    = Dashboard.refreshComponents (inr ra') (inr re') s.
Proof.
  intros ra ra' re re' s Ha He.
  unfold Dashboard.refreshComponents, Dashboard.then_json.
  rewrite Ha, He. reflexivity.
Qed.

Lemma X7_witness :
  actionsTable
    (snd (Dashboard.refreshComponents (inr sample_actions_error_response)
            (inr sample_events_response) page_load))
  = [Dashboard.action_row sample_action].
Proof.
  rewrite (X7_refresh_ignores_status sample_actions_error_response
             sample_actions_response sample_events_response
             sample_events_response page_load eq_refl eq_refl).
  reflexivity.
Defined.

(** X8. [loadComponents()] with two parseable answers leaves each dropdown
    holding its placeholder followed by one option per item, in order, the
    option's value and label both being the item's name.  The result does
    not depend on what the dropdowns held, so loading again never
    duplicates options.  No alert is shown. *)
Theorem X8_loadComponents_fills_dropdowns :
  forall (ra : Dashboard.Response (list Action))
         (re : Dashboard.Response (list Event))
         (actions : list Action) (events : list Event)
         (sel : Dashboard.selects) (s : page),
    Dashboard.body_json ra = Some actions ->
    Dashboard.body_json re = Some events ->
    Dashboard.loadComponents (inr ra) (inr re) sel s
    = (inr {| Dashboard.actionSelect :=
                Dashboard.action_placeholder
                :: map (fun a => Dashboard.option_markup (action_name a)
                                                         (action_name a))
                       actions;
              Dashboard.eventSelect :=
                Dashboard.event_placeholder
                :: map (fun e => Dashboard.option_markup (event_name e)
                                                         (event_name e))
                       events |},
       send Dashboard.events_request (send Dashboard.actions_request s)).
Proof.
  intros ra re actions events sel s Ha He.
  unfold Dashboard.loadComponents, Dashboard.then_json, Dashboard.Promise_all.
  rewrite Ha, He. js_steps.
  rewrite !fold_append_map. reflexivity.
Qed.

Lemma X8_witness :
  fst (Dashboard.loadComponents (inr sample_actions_response)
         (inr sample_events_response)
         {| Dashboard.actionSelect :=
              [Dashboard.action_placeholder;
               Dashboard.option_markup "Old" "Old"];
            Dashboard.eventSelect := [] |}
         page_load)
  = inr {| Dashboard.actionSelect :=
             [Dashboard.action_placeholder;
              Dashboard.option_markup "MyAction" "MyAction"];
           Dashboard.eventSelect :=
             [Dashboard.event_placeholder;
              Dashboard.option_markup "MyEvent" "MyEvent"] |}.
Proof.
  exact (f_equal fst
           (X8_loadComponents_fills_dropdowns sample_actions_response
              sample_events_response [sample_action] [sample_event]
              {| Dashboard.actionSelect :=
                   [Dashboard.action_placeholder;
                    Dashboard.option_markup "Old" "Old"];
                 Dashboard.eventSelect := [] |}
              page_load eq_refl eq_refl)).
Defined.

(** X9. [loadComponents()] when a fetch fails or a body cannot be parsed:
    the dropdowns are exactly as they were (not even reset to the
    placeholder), one danger alert "Error loading components" is shown, and
    the function returns normally.  Opening the link form in that case
    leaves a shown modal whose dropdowns hold only their placeholders. *)
Theorem X9_loadComponents_failure_keeps_dropdowns :
  forall (ra : Dashboard.fetch_outcome (list Action))
         (re : Dashboard.fetch_outcome (list Event))
         (sel : Dashboard.selects) (s : page),
    fetch_fails ra = true \/ fetch_fails re = true ->
    Dashboard.loadComponents ra re sel s
    = (inr sel,
       Dashboard.showAlert "danger" "Error loading components"
         (send Dashboard.events_request (send Dashboard.actions_request s)))
    /\ fst (Dashboard.linkActionEvent ra re s)
       = inr {| Dashboard.actionSelect := [Dashboard.action_placeholder];
                Dashboard.eventSelect := [Dashboard.event_placeholder] |}
    /\ currentModal (snd (Dashboard.linkActionEvent ra re s))
       = Some {| modal_element := "#componentModal"; isShown := true |}.
Proof.
  intros ra re sel s Hfail.
  destruct (failed_fetch_rejects ra re Hfail) as [e He].
  unfold Dashboard.linkActionEvent, Dashboard.showModal,
    Dashboard.loadComponents.
  js_steps. rewrite He. repeat split; reflexivity.
Qed.

Lemma X9_witness :
  alerts
    (snd (Dashboard.loadComponents sample_network_failure sample_events_reply
            Dashboard.linkForm_selects page_load))
  = [Dashboard.alert_markup "danger" "Error loading components"].
Proof.
  exact (f_equal (fun r => alerts (snd r))
           (proj1 (X9_loadComponents_failure_keeps_dropdowns
                     sample_network_failure sample_events_reply
                     Dashboard.linkForm_selects page_load
                     (or_introl eq_refl)))).
Defined.

(** X10. [updateActiveEvents()]: a successful answer replaces the rows of
    the events table by one row per event, in order, and changes nothing
    else; a failed request is dropped in silence, the only trace being the
    request itself: the table, the alerts and the console are as before. *)
Theorem X10_active_events_render_or_silence :
  forall (reply : ajax_outcome (list Event)) (s : page),
    let s' := Dashboard.updateActiveEvents reply s in
    let sent := {| req_method := "GET"; req_url := "/api/events/active";
                   req_data := []; req_headers := []; req_body := None |} in
    match reply with
    | AjaxDone events =>
        s' = set_eventsTable (map Dashboard.active_event_row events)
               (send sent s)
        /\ List.length (eventsTable s') = List.length events
    | AjaxFail _ _ _ _ =>
        s' = send sent s
        /\ eventsTable s' = eventsTable s
        /\ alerts s' = alerts s
        /\ console s' = console s
    end.
Proof.
  intros reply s. cbv zeta. destruct reply as [events|st body ts err].
  - rewrite updateActiveEvents_done. cbn [eventsTable set_eventsTable].
    rewrite length_map. split; reflexivity.
  - repeat split; reflexivity.
Qed.

(** X11. The events table has two writers, the registry refresh and the
    active-events update, and each discards the other's rows: after both
    have run, the table holds the rows of the one that ran last; a failed
    run of either leaves the other's rows in place. *)
Theorem X11_events_table_last_writer_wins :
  forall (ra : Dashboard.Response (list Action))
         (re : Dashboard.Response (list Event))
         (actions : list Action) (events shown : list Event) (s : page),
    Dashboard.body_json ra = Some actions ->
    Dashboard.body_json re = Some events ->
    eventsTable
      (Dashboard.updateActiveEvents (AjaxDone shown)
         (snd (Dashboard.refreshComponents (inr ra) (inr re) s)))
    = map Dashboard.active_event_row shown
    /\ eventsTable
         (snd (Dashboard.refreshComponents (inr ra) (inr re)
                 (Dashboard.updateActiveEvents (AjaxDone shown) s)))
       = map Dashboard.event_row events
    /\ (forall st body ts err,
           eventsTable
             (Dashboard.updateActiveEvents (AjaxFail st body ts err)
                (snd (Dashboard.refreshComponents (inr ra) (inr re) s)))
           = map Dashboard.event_row events)
    /\ (forall e : Dashboard.JsError,
           eventsTable
             (snd (Dashboard.refreshComponents (inl e) (inr re)
                     (Dashboard.updateActiveEvents (AjaxDone shown) s)))
           = map Dashboard.active_event_row shown).
Proof.
  intros ra re actions events shown s Ha He.
  rewrite !(refreshComponents_rebuilds ra re actions events) by assumption.
  rewrite !updateActiveEvents_done.
  split; [reflexivity|]. split; [reflexivity|]. split.
  - intros st body ts err. reflexivity.
  - intros e. reflexivity.
Qed.

Lemma X11_witness :
  eventsTable
    (Dashboard.updateActiveEvents (AjaxDone [sample_event])
       (snd (Dashboard.refreshComponents (inr sample_actions_response)
               (inr sample_events_response) page_load)))
  = [Dashboard.active_event_row sample_event].
Proof.
  exact (proj1 (X11_events_table_last_writer_wins sample_actions_response
                  sample_events_response [sample_action] [sample_event]
                  [sample_event] page_load eq_refl eq_refl)).
Defined.

(** X12. The row the registry refresh draws for an event does not depend
    on its [active] flag: it always carries the badge "Active".  The row the
    active-events update draws does depend on it: an event and the same
    event with the flag flipped never get the same row. *)
Theorem X12_only_active_events_rows_show_the_flag :
  forall (name webhook_key : string) (flag : bool),
    let e := {| event_name := name; key := webhook_key; active := flag |} in
    let flipped :=
      {| event_name := name; key := webhook_key; active := negb flag |} in
    Dashboard.event_row e = Dashboard.event_row flipped
    /\ includes ">Active</span>" (Dashboard.event_row e) = true
    /\ Dashboard.active_event_row e <> Dashboard.active_event_row flipped.
Proof.
  intros name webhook_key flag. cbv zeta. split; [reflexivity|]. split.
  - unfold Dashboard.event_row. cbn [event_name key].
    do 4 apply includes_skip. apply includes_app_l. reflexivity.
  - unfold Dashboard.active_event_row. cbn [event_name key active].
    intros H.
    do 5 apply append_inv_head in H.
    destruct flag; vm_compute in H; discriminate H.
Qed.

(** X13. [updateDashboard()], for every pair of outcomes: it sends
    [GET /api/account/info] then [GET /api/events/active] and nothing else,
    never shows an alert, and never touches the actions table, the modal or
    the log.  A failed account request leaves the account widgets as they
    were and writes one console line; a failed events request leaves the
    events table as it was. *)
Theorem X13_dashboard_update_is_quiet :
  forall (number : Type) (toFixed : number -> nat -> string)
         (Number_toString : number -> string)
         (account : ajax_outcome (Dashboard.AccountInfo number))
         (events : ajax_outcome (list Event))
         (st : page * Dashboard.account_view),
    let st' :=
      Dashboard.updateDashboard number toFixed Number_toString account events
        st in
    alerts (fst st') = alerts (fst st)
    /\ network (fst st')
       = network (fst st)
         ++ [{| req_method := "GET"; req_url := "/api/account/info";
                req_data := []; req_headers := []; req_body := None |};
             {| req_method := "GET"; req_url := "/api/events/active";
                req_data := []; req_headers := []; req_body := None |}]
    /\ actionsTable (fst st') = actionsTable (fst st)
    /\ currentModal (fst st') = currentModal (fst st)
    /\ logContainer (fst st') = logContainer (fst st)
    /\ match account with
       | AjaxDone info =>
           Dashboard.balance_text (snd st')
           = ("Balance: $" ++ toFixed (Dashboard.balance number info) 2)%string
           /\ console (fst st') = console (fst st)
       | AjaxFail _ _ _ errorThrown =>
           snd st' = snd st
           /\ console (fst st')
              = console (fst st)
                ++ [("Error updating account info:", LoggedText errorThrown)]
       end
    /\ match events with
       | AjaxDone evs =>
           eventsTable (fst st') = map Dashboard.active_event_row evs
       | AjaxFail _ _ _ _ => eventsTable (fst st') = eventsTable (fst st)
       end.
Proof.
  intros number toFixed Number_toString account events [s v]. cbv zeta.
  unfold Dashboard.updateDashboard, Dashboard.updateAccountInfo.
  destruct account as [info|st1 b1 t1 e1];
    destruct events as [evs|st2 b2 t2 e2];
    cbn [fst snd]; rewrite ?updateActiveEvents_done;
    unfold Dashboard.updateActiveEvents, ajax;
    cbn [error Dashboard.active_events_request ajax_request url method data
         fst snd alerts network actionsTable currentModal logContainer console
         eventsTable send set_network set_eventsTable console_error set_console
         Dashboard.balance_text];
    rewrite <- ?app_assoc; repeat split; reflexivity.
Qed.

(** ** Invariants of a whole session *)

Ltac page_simpl :=
  cbn [fst snd alerts network console currentModal logContainer
       lastLogTimestamp actionsTable eventsTable modalTitle modalBody
       send set_network console_error set_console set_alerts set_modal
       set_currentModal set_logContainer set_lastLogTimestamp
       set_actionsTable set_eventsTable Dashboard.showAlert].

(** Closes a [footprint] goal once the new page is in closed form. *)
Ltac grows :=
  first
    [ exists []; split; [rewrite app_nil_r; reflexivity | cbn; lia]
    | eexists; split; [rewrite <- ?app_assoc; reflexivity | cbn; lia]
    | exists []; rewrite app_nil_r; reflexivity
    | eexists; rewrite <- ?app_assoc; reflexivity ].

Ltac footprint_here :=
  unfold footprint; page_simpl;
  split; [grows | split; [grows | split; [grows | auto]]].

Lemma footprint_form_accepted (post : request) (ok_text : string) (s : page) :
  footprint s (snd (form_accepted post ok_text s)).
Proof.
  unfold form_accepted, Dashboard.closeModal. page_simpl.
  destruct (currentModal s) as [m|] eqn:Hm; footprint_here.
  rewrite Hm. auto.
Qed.

Lemma footprint_form_failed (post : request) (text : string) (s : page) :
  footprint s (snd (form_failed post text s)).
Proof. unfold form_failed. footprint_here. Qed.

Lemma footprint_refresh (ra : Dashboard.fetch_outcome (list Action))
  (re : Dashboard.fetch_outcome (list Event)) (s : page) :
  footprint s (snd (Dashboard.refreshComponents ra re s)).
Proof.
  unfold Dashboard.refreshComponents. js_steps.
  destruct (Dashboard.Promise_all (Dashboard.then_json ra)
              (Dashboard.then_json re)) as [e|[actions events]].
  - footprint_here.
  - unfold Dashboard.updateActionsTable, Dashboard.updateEventsTable.
    js_steps. rewrite actions_rows_fold, events_rows_fold. footprint_here.
Qed.

Lemma footprint_link (ra : Dashboard.fetch_outcome (list Action))
  (re : Dashboard.fetch_outcome (list Event)) (s : page) :
  footprint s (snd (Dashboard.linkActionEvent ra re s)).
Proof.
  unfold Dashboard.linkActionEvent, Dashboard.showModal,
    Dashboard.loadComponents. js_steps.
  destruct (Dashboard.Promise_all (Dashboard.then_json ra)
              (Dashboard.then_json re)) as [e|[actions events]];
    js_steps; footprint_here.
Qed.

Lemma footprint_refresh_resumed (ra : Dashboard.fetch_outcome (list Action))
  (re : Dashboard.fetch_outcome (list Event)) (s : page) :
  footprint s (snd (Dashboard.refreshComponents_resumed ra re s)).
Proof.
  unfold Dashboard.refreshComponents_resumed. js_steps.
  destruct (Dashboard.Promise_all (Dashboard.then_json ra)
              (Dashboard.then_json re)) as [e|[actions events]].
  - footprint_here.
  - unfold Dashboard.updateActionsTable, Dashboard.updateEventsTable.
    js_steps. rewrite actions_rows_fold, events_rows_fold. footprint_here.
Qed.

Lemma footprint_perform (fmt : jsval -> string) (dom : DOM) (s : page)
  (o : op) :
  footprint s (perform fmt dom s o).
Proof.
  destruct o; cbn [perform].
  - unfold Dashboard.createAction, Dashboard.showModal, Dashboard.act.
    footprint_here.
  - unfold Dashboard.createEvent, Dashboard.showModal, Dashboard.act.
    footprint_here.
  - apply footprint_link.
  - rewrite createActionForm_submit_settled. destruct (accepted reply);
      [apply footprint_form_accepted | apply footprint_form_failed].
  - rewrite createEventForm_submit_settled. destruct (accepted reply);
      [apply footprint_form_accepted | apply footprint_form_failed].
  - rewrite linkForm_submit_settled. destruct (accepted reply);
      [apply footprint_form_accepted | apply footprint_form_failed].
  - rewrite apiForm_submit_settled. destruct (accepted reply);
      [footprint_here | apply footprint_form_failed].
  - rewrite riskForm_submit_settled. destruct (accepted reply);
      [footprint_here | apply footprint_form_failed].
  - apply footprint_refresh.
  - apply footprint_refresh_resumed.
  - unfold Dashboard.closeModal.
    destruct (currentModal s) as [m|] eqn:Hm; footprint_here.
    rewrite Hm. auto.
  - destruct reply as [events|st body ts err].
    + rewrite updateActiveEvents_done. footprint_here.
    + unfold Dashboard.updateActiveEvents, ajax.
      cbn [error Dashboard.active_events_request]. footprint_here.
  - destruct reply as [xs|st body ts err].
    + rewrite full_tick_done. footprint_here.
    + unfold FullRefresh.getLogData, ajax.
      cbn [error FullRefresh.logs_request]. footprint_here.
  - destruct reply as [[|l logs]|st body ts err].
    + unfold Incremental.updateLogs, ajax.
      cbn [success Incremental.logs_request Incremental.updateLogs_success
           List.length Nat.ltb Nat.leb].
      footprint_here.
    + rewrite incremental_tick_nonempty by discriminate. footprint_here.
    + unfold Incremental.updateLogs, ajax.
      cbn [error Incremental.logs_request]. footprint_here.
  - destruct reply as [u|st body ts err];
      unfold Incremental.clearLogs, ajax;
      cbn [success error Incremental.clear_request]; cbv zeta; footprint_here.
  - unfold Dashboard.refreshComponents_called. js_steps. footprint_here.
  - unfold Dashboard.showModal, Dashboard.loadComponents_called. js_steps.
    footprint_here.
  - unfold Dashboard.loadComponents_resumed. js_steps.
    destruct (Dashboard.Promise_all (Dashboard.then_json ra)
                (Dashboard.then_json re)) as [e|[actions events]];
      js_steps; footprint_here.
Qed.

(** The whole functions are their two halves run one after the other. *)
Lemma loadComponents_split (ra : Dashboard.fetch_outcome (list Action))
  (re : Dashboard.fetch_outcome (list Event)) (sel : Dashboard.selects)
  (s : page) :
  Dashboard.loadComponents ra re sel s
  = Dashboard.bind Dashboard.loadComponents_called
      (fun _ => Dashboard.loadComponents_resumed ra re sel) s.
Proof.
  unfold Dashboard.loadComponents, Dashboard.loadComponents_called,
    Dashboard.loadComponents_resumed.
  js_steps.
  destruct (Dashboard.Promise_all (Dashboard.then_json ra)
              (Dashboard.then_json re)); reflexivity.
Qed.

Lemma footprint_modal_ok (s s' : page) :
  footprint s s' ->
  (modal_ok (currentModal s) -> modal_ok (currentModal s'))
  /\ (currentModal s <> None -> currentModal s' <> None).
Proof.
  intros [_ [_ [_ [H|[H|H]]]]]; rewrite H; split; intros Hs; try exact Hs.
  - destruct (currentModal s) as [m|]; [exact Hs | exact I].
  - destruct (currentModal s) as [m|]; [discriminate | congruence].
  - reflexivity.
  - discriminate.
Qed.

(** X14. Over any sequence of operations on the dashboard page (opening
    and submitting the forms, refreshing, closing the modal, the pollers),
    the tracked modal is always an instance for [#componentModal], and once
    a modal has been tracked [currentModal] never becomes [null] again:
    closing hides the instance but keeps it tracked. *)
Theorem X14_tracked_modal_invariant :
  forall (fmt : jsval -> string) (dom : DOM) (ops : list op) (s : page),
    modal_ok (currentModal s) ->
    modal_ok (currentModal (session fmt dom ops s))
    /\ (currentModal s <> None -> currentModal (session fmt dom ops s) <> None).
Proof.
  intros fmt dom ops. unfold session.
  induction ops as [|o ops IH]; intros s Hok; cbn [fold_left].
  - split; [exact Hok | auto].
  - destruct (footprint_modal_ok s (perform fmt dom s o)
                (footprint_perform fmt dom s o)) as [Hk Hn].
    destruct (IH (perform fmt dom s o) (Hk Hok)) as [IH1 IH2].
    split; [exact IH1 | auto].
Qed.

Lemma X14_witness :
  currentModal
    (session sample_locale sample_dom
       [OpenCreateAction; SubmitCreateAction "MyAction" sample_accepted;
        RefreshResumed sample_network_failure sample_events_reply;
        CloseModal; Refresh sample_network_failure sample_events_reply]
       page_load) <> None.
Proof.
  refine (proj2 (X14_tracked_modal_invariant sample_locale sample_dom
                   [SubmitCreateAction "MyAction" sample_accepted;
                    RefreshResumed sample_network_failure sample_events_reply;
                    CloseModal;
                    Refresh sample_network_failure sample_events_reply]
                   (perform sample_locale sample_dom page_load
                      OpenCreateAction)
                   eq_refl) _).
  discriminate.
Defined.

(** X15. Over any sequence of turns of the event loop, nothing is ever
    taken back: the alerts, the requests sent and the console lines after
    the sequence are those before it followed by new ones.  Each turn adds
    at most one alert and sends at most three requests, a turn being the run
    of a handler or timer callback up to its end, or the resumption of the
    registry refresh that an accepted submit started without awaiting it
    (so an accepted submit and its failing refresh are two turns and may
    show two alerts). *)
Theorem X15_session_only_adds :
  forall (fmt : jsval -> string) (dom : DOM) (ops : list op) (s : page),
    (exists extra,
        alerts (session fmt dom ops s) = alerts s ++ extra
        /\ List.length extra <= List.length ops)
    /\ (exists reqs,
           network (session fmt dom ops s) = network s ++ reqs
           /\ List.length reqs <= 3 * List.length ops)
    /\ (exists lines, console (session fmt dom ops s) = console s ++ lines).
Proof.
  intros fmt dom ops. unfold session.
  induction ops as [|o ops IH]; intros s; cbn [fold_left].
  - repeat split; exists []; rewrite app_nil_r; try split; auto.
  - destruct (footprint_perform fmt dom s o)
      as [[a1 [Ha1 La1]] [[r1 [Hr1 Lr1]] [[c1 Hc1] _]]].
    destruct (IH (perform fmt dom s o))
      as [[a2 [Ha2 La2]] [[r2 [Hr2 Lr2]] [c2 Hc2]]].
    split; [|split].
    + exists (a1 ++ a2). rewrite Ha2, Ha1, <- app_assoc, length_app.
      split; [reflexivity | cbn [List.length]; lia].
    + exists (r1 ++ r2). rewrite Hr2, Hr1, <- app_assoc, length_app.
      split; [reflexivity | cbn [List.length]; lia].
    + exists (c1 ++ c2). rewrite Hc2, Hc1, <- app_assoc. reflexivity.
Qed.

(** X16. The modal host composes as follows.  A second [showModal]
    replaces everything the first one set (title, body, tracked instance).
    [closeModal] after [showModal] leaves the instance tracked but not
    shown, with the title and body still in place.  Closing twice is the
    same as closing once. *)
Theorem X16_modal_host_composition :
  forall (title1 content1 title2 content2 : string) (s : page),
    let opened := snd (Dashboard.showModal title1 content1 s) in
    let closed := snd (Dashboard.closeModal opened) in
    snd (Dashboard.showModal title2 content2 opened)
    = snd (Dashboard.showModal title2 content2 s)
    /\ currentModal opened
       = Some {| modal_element := "#componentModal"; isShown := true |}
    /\ currentModal closed
       = Some {| modal_element := "#componentModal"; isShown := false |}
    /\ modalTitle closed = title1
    /\ modalBody closed = content1
    /\ Dashboard.closeModal closed = (inr tt, closed)
    /\ snd (Dashboard.closeModal (snd (Dashboard.closeModal s)))
       = snd (Dashboard.closeModal s).
Proof.
  intros title1 content1 title2 content2 s. cbv zeta.
  repeat (split; [reflexivity|]).
  unfold Dashboard.closeModal.
  destruct (currentModal s) as [m|] eqn:Hm; cbn [snd currentModal
    set_currentModal set_modal]; [reflexivity | rewrite Hm; reflexivity].
Qed.

(** * Further properties of the log pollers *)

Section PollerRuns.

Variable fmt : jsval -> string.
Variable dom : DOM.

Lemma fragments_app (logs rest : list LogEntry) :
  fragments fmt dom (logs ++ rest)
  = fragments fmt dom rest ++ fragments fmt dom logs.
Proof.
  unfold fragments. rewrite rev_app_distr, map_app, concat_app. reflexivity.
Qed.



Lemma ticks_list (responses : list (list LogEntry)) (s : page) :
  log_entries (logContainer s) <= 100 - entries_above dom ->
  logContainer (Incremental.run fmt dom (ticks responses) s)
  = keep_log_entries (100 - entries_above dom)
      (fragments fmt dom (concat responses) ++ logContainer s).
Proof.
  unfold Incremental.run, ticks. revert s.
  induction responses as [|logs responses IH]; intros s Hroom;
    cbn [map fold_left concat Incremental.step].
  - unfold fragments. cbn [rev map concat app].
    rewrite keep_log_entries_all by exact Hroom. reflexivity.
  - assert (Htick : logContainer
                      (Incremental.updateLogs fmt dom (AjaxDone logs) s)
                    = keep_log_entries (100 - entries_above dom)
                        (fragments fmt dom logs ++ logContainer s)).
    { destruct logs as [|l logs].
      - unfold fragments. cbn [rev map concat app].
        rewrite keep_log_entries_all by exact Hroom. reflexivity.
      - rewrite incremental_tick_nonempty by discriminate. reflexivity. }
    rewrite IH.
    + rewrite Htick, keep_log_entries_on_top, fragments_app, app_assoc.
      reflexivity.
    + rewrite Htick, keep_log_entries_count. lia.
Qed.

End PollerRuns.

(** X17. Incremental poller, any number of successful ticks from a list
    that has room under the cap: the list afterwards is what the removal of
    the entries past position 99 leaves of the fragments of all the entries
    received, the fragment of the last entry received on top, followed by
    what was rendered before.  Entries are never compared with one another,
    so an entry delivered twice is shown twice. *)
Theorem X17_incremental_ticks_accumulate :
  forall (fmt : jsval -> string) (dom : DOM)
         (responses : list (list LogEntry)) (s : page),
    log_entries (logContainer s) <= 100 - entries_above dom ->
    logContainer (Incremental.run fmt dom (ticks responses) s)
    = keep_log_entries (100 - entries_above dom)
        (concat (map (fun log =>
                        parseHTML dom (Incremental.createLogEntry fmt log))
                     (rev (concat responses)))
         ++ logContainer s)
    /\ log_entries (logContainer (Incremental.run fmt dom (ticks responses) s))
       <= 100 - entries_above dom.
Proof.
  intros fmt dom responses s Hroom.
  rewrite (ticks_list fmt dom responses s Hroom). split; [reflexivity|].
  rewrite keep_log_entries_count. lia.
Qed.

Lemma X17_witness :
  logContainer
    (Incremental.run sample_locale sample_dom
       (ticks [[sample_log]; []; [sample_log]]) page_load)
  = [Element "div" "log-entry"
       [TextNode (Incremental.createLogEntry sample_locale sample_log)];
     Element "div" "log-entry"
       [TextNode (Incremental.createLogEntry sample_locale sample_log)]].
Proof.
  refine (eq_trans
            (proj1 (X17_incremental_ticks_accumulate sample_locale sample_dom
                      [[sample_log]; []; [sample_log]] page_load _)) _).
  - cbn. lia.
  - reflexivity.
Defined.



(** X19. Clearing and polling.  After an acknowledged clear the next poll
    sends [GET /logs] without [since], whatever the mark was, and a
    non-empty answer to it is rendered on an empty list: what is left is
    what the removal of the entries past position 99 leaves of its
    fragments, with at most 100 entries.  After a failed clear the next
    poll sends the same query as it would have without the clear. *)
Theorem X19_clear_then_poll :
  forall (fmt : jsval -> string) (dom : DOM) (u : unit) (st : Z)
         (body textStatus errorThrown : string)
         (next : ajax_outcome (list LogEntry)) (logs : list LogEntry)
         (s : page),
    network (Incremental.updateLogs fmt dom next
               (Incremental.clearLogs (AjaxDone u) s))
    = network s ++ [logs_clear_post; logs_get []]
    /\ (logs <> [] ->
        logContainer (Incremental.updateLogs fmt dom (AjaxDone logs)
                        (Incremental.clearLogs (AjaxDone u) s))
        = keep_log_entries (100 - entries_above dom)
            (concat (map (fun log =>
                            parseHTML dom (Incremental.createLogEntry fmt log))
                         (rev logs)))
        /\ log_entries
             (logContainer (Incremental.updateLogs fmt dom (AjaxDone logs)
                              (Incremental.clearLogs (AjaxDone u) s)))
           <= 100)
    /\ network (Incremental.updateLogs fmt dom next
                  (Incremental.clearLogs
                     (AjaxFail st body textStatus errorThrown) s))
       = network s
         ++ [logs_clear_post;
             logs_get (if truthy (lastLogTimestamp s)
                       then [("since", lastLogTimestamp s)] else [])].
Proof.
  intros fmt dom u st body textStatus errorThrown next logs s.
  split; [|split].
  - rewrite incremental_tick_network.
    unfold Incremental.clearLogs, ajax.
    cbn [success Incremental.clear_request]. cbv zeta.
    cbn [lastLogTimestamp network send set_network Dashboard.showAlert
         set_alerts set_lastLogTimestamp set_logContainer truthy].
    rewrite <- app_assoc. reflexivity.
  - intros Hne. rewrite incremental_tick_nonempty by exact Hne.
    cbn [logContainer set_logContainer]. unfold Incremental.clearLogs, ajax.
    cbn [success Incremental.clear_request]. cbv zeta.
    cbn [logContainer Dashboard.showAlert set_alerts set_lastLogTimestamp
         set_logContainer].
    rewrite app_nil_r. split; [reflexivity|].
    rewrite keep_log_entries_count. lia.
  - rewrite incremental_tick_network.
    unfold Incremental.clearLogs, ajax.
    cbn [error Incremental.clear_request].
    cbn [lastLogTimestamp network send set_network Dashboard.showAlert
         set_alerts].
    rewrite <- app_assoc. reflexivity.
Qed.

Lemma X19_witness :
  logContainer
    (Incremental.updateLogs sample_locale sample_dom (AjaxDone [sample_log])
       (Incremental.clearLogs (AjaxDone tt)
          (Incremental.updateLogs sample_locale sample_dom
             (AjaxDone [sample_log; sample_log]) page_load)))
  = [Element "div" "log-entry"
       [TextNode (Incremental.createLogEntry sample_locale sample_log)]].
Proof.
  refine (eq_trans
            (proj1 (proj1 (proj2
               (X19_clear_then_poll sample_locale sample_dom tt 0 "" "" ""
                  (AjaxDone []) [sample_log]
                  (Incremental.updateLogs sample_locale sample_dom
                     (AjaxDone [sample_log; sample_log]) page_load)))
               _)) _).
  - discriminate.
  - reflexivity.
Defined.

Lemma last_done_snoc {A : Type} (replies : list (ajax_outcome A))
  (reply : ajax_outcome A) :
  last_done (replies ++ [reply])
  = match reply with
    | AjaxDone payload => Some payload
    | AjaxFail _ _ _ _ => last_done replies
    end.
Proof. unfold last_done. rewrite fold_left_app. reflexivity. Qed.

(** X20. Full-refresh poller, any sequence of ticks: what is rendered
    afterwards is decided by the last successful tick alone, namely one box
    (source, formatted time, message) for each of the first 20 of the
    reverse of its response, in that order; if no tick succeeded the list
    is what it was.  Earlier responses leave no trace. *)
Theorem X20_full_refresh_shows_last_success :
  forall (fmt : jsval -> string)
         (replies : list (ajax_outcome (list LogEntry))) (s : page),
    let box := fun log : LogEntry =>
      Element "div" "log-entry mb-2 p-2 border-bottom"
        [Element "div" "d-flex justify-content-between mb-1"
           [Element "span" "fw-bold text-primary" [TextNode (parent log)];
            Element "span" "text-muted small"
                    [TextNode (fmt (event_time log))]];
         Element "div" "small" [TextNode (event_data log)]] in
    logContainer (FullRefresh.run fmt replies s)
    = match last_done replies with
      | Some xs => map box (firstn 20 (rev xs))
      | None => logContainer s
      end.
Proof.
  intros fmt replies s. cbv zeta.
  induction replies as [|reply replies IH] using rev_ind.
  - reflexivity.
  - unfold FullRefresh.run in *. rewrite fold_left_app, last_done_snoc.
    cbn [fold_left]. destruct reply as [xs|st body ts err].
    + rewrite full_tick_done. reflexivity.
    + exact IH.
Qed.

(** X21. Full-refresh poller: the boxes rendered are those of the last 20
    entries of the response (of all of them when it has fewer), the last
    entry of the response on top, each showing its entry's source,
    formatted time and message; a response of 20 entries or more always
    fills the list to exactly 20. *)
Theorem X21_full_refresh_shows_last_20_newest_first :
  forall (fmt : jsval -> string) (xs : list LogEntry) (s : page),
    let box := fun log : LogEntry =>
      Element "div" "log-entry mb-2 p-2 border-bottom"
        [Element "div" "d-flex justify-content-between mb-1"
           [Element "span" "fw-bold text-primary" [TextNode (parent log)];
            Element "span" "text-muted small"
                    [TextNode (fmt (event_time log))]];
         Element "div" "small" [TextNode (event_data log)]] in
    logContainer (FullRefresh.getLogData fmt (AjaxDone xs) s)
    = map box (rev (skipn (List.length xs - 20) xs))
    /\ (20 <= List.length xs ->
        List.length (logContainer (FullRefresh.getLogData fmt (AjaxDone xs) s))
        = 20).
Proof.
  intros fmt xs s. cbv zeta. rewrite full_tick_done.
  cbn [logContainer set_logContainer]. split.
  - rewrite firstn_rev. reflexivity.
  - intros H. rewrite length_map, length_firstn, length_rev. lia.
Qed.

Lemma X21_witness :
  List.length
    (logContainer
       (FullRefresh.getLogData sample_locale (AjaxDone (repeat sample_log 23))
          page_load)) = 20.
Proof.
  apply (proj2 (X21_full_refresh_shows_last_20_newest_first sample_locale
                  (repeat sample_log 23) page_load)).
  rewrite repeat_length. lia.
Defined.

(** X22. One request per tick, never more.  Every tick of the full-refresh
    poller sends the same [GET /logs] without any query, whatever happened
    before; the incremental poller sends exactly one request per tick and
    per clear. *)
Theorem X22_one_request_per_tick :
  forall (fmt : jsval -> string) (dom : DOM)
         (replies : list (ajax_outcome (list LogEntry)))
         (evs : list Incremental.event) (s : page),
    network (FullRefresh.run fmt replies s)
    = network s ++ repeat (logs_get []) (List.length replies)
    /\ List.length (network (Incremental.run fmt dom evs s))
       = List.length (network s) + List.length evs.
Proof.
  intros fmt dom replies evs s. split.
  - unfold FullRefresh.run. revert s.
    induction replies as [|reply replies IH]; intros s;
      cbn [fold_left List.length repeat].
    + rewrite app_nil_r. reflexivity.
    + rewrite IH. destruct reply as [xs|st body ts err].
      * rewrite full_tick_done.
        cbn [network set_logContainer send set_network].
        rewrite <- app_assoc. reflexivity.
      * cbn [FullRefresh.getLogData ajax]. unfold FullRefresh.getLogData, ajax.
        cbn [error FullRefresh.logs_request network console_error set_console
             send set_network].
        rewrite <- app_assoc. reflexivity.
  - unfold Incremental.run. revert s.
    induction evs as [|e evs IH]; intros s; cbn [fold_left List.length].
    + lia.
    + rewrite IH. destruct e as [reply|reply]; cbn [Incremental.step].
      * rewrite incremental_tick_network, length_app. cbn [List.length]. lia.
      * destruct reply; unfold Incremental.clearLogs, ajax;
          cbn [success error Incremental.clear_request]; cbv zeta;
          cbn [network send set_network Dashboard.showAlert set_alerts
               set_lastLogTimestamp set_logContainer];
          rewrite length_app; cbn [List.length]; lia.
Qed.

(** X23. The pollers keep to the log panel.  Ticks of either poller never
    show an alert and never touch the registry tables or the modal; the
    full-refresh poller never changes the high-water mark either, and a
    successful tick of either writes nothing to the console. *)
Theorem X23_pollers_keep_to_the_log_panel :
  forall (fmt : jsval -> string) (dom : DOM)
         (replies : list (ajax_outcome (list LogEntry))) (s : page),
    let full := FullRefresh.run fmt replies s in
    let incr := Incremental.run fmt dom (map Incremental.Tick replies) s in
    (alerts full = alerts s /\ actionsTable full = actionsTable s
     /\ eventsTable full = eventsTable s /\ currentModal full = currentModal s
     /\ lastLogTimestamp full = lastLogTimestamp s)
    /\ (alerts incr = alerts s /\ actionsTable incr = actionsTable s
        /\ eventsTable incr = eventsTable s
        /\ currentModal incr = currentModal s)
    /\ (forall (xs : list LogEntry),
           console (FullRefresh.getLogData fmt (AjaxDone xs) s) = console s
           /\ console (Incremental.updateLogs fmt dom (AjaxDone xs) s) = console s).
Proof.
  intros fmt dom replies s. cbv zeta. split; [|split].
  - unfold FullRefresh.run. revert s.
    induction replies as [|reply replies IH]; intros s; cbn [fold_left].
    + repeat split; reflexivity.
    + destruct (IH (FullRefresh.getLogData fmt reply s))
        as [H1 [H2 [H3 [H4 H5]]]].
      rewrite H1, H2, H3, H4, H5.
      destruct reply as [xs|st body ts err];
        [rewrite full_tick_done|]; repeat split; reflexivity.
  - unfold Incremental.run. revert s.
    induction replies as [|reply replies IH]; intros s; cbn [fold_left map].
    + repeat split; reflexivity.
    + destruct (IH (Incremental.step fmt dom s (Incremental.Tick reply)))
        as [H1 [H2 [H3 H4]]].
      rewrite H1, H2, H3, H4. cbn [Incremental.step].
      destruct reply as [[|l logs]|st body ts err];
        [ | rewrite incremental_tick_nonempty by discriminate | ];
        repeat split; reflexivity.
  - intros xs. split.
    + rewrite full_tick_done. reflexivity.
    + destruct xs as [|l logs];
        [ | rewrite incremental_tick_nonempty by discriminate ]; reflexivity.
Qed.

(** * Further properties of the renderers *)

(** X24. The linked-events cell of a row of the actions table: an action
    with no linked events shows "None"; an action whose first linked event
    has a non-empty name shows the names separated by ", ". *)
Theorem X24_action_row_linked_events_cell :
  forall a : Action,
    (linkedEvents a = [] ->
     includes "<td>None</td>" (Dashboard.action_row a) = true)
    /\ (forall (first : string) (others : list string),
           linkedEvents a = first :: others ->
           first <> ""%string ->
           includes
             ("<td>" ++ String.concat ", " (first :: others) ++ "</td>")%string
             (Dashboard.action_row a) = true).
Proof.
  intros a. unfold Dashboard.action_row. split.
  - intros Hnone. rewrite Hnone.
    apply includes_skip, includes_skip, includes_skip, includes_line.
    reflexivity.
  - intros first others Hsome Hne. rewrite Hsome.
    apply includes_skip, includes_skip, includes_skip, includes_line.
    assert (Hjoin : str_or (String.concat ", " (first :: others)) "None"
                    = String.concat ", " (first :: others)).
    { unfold str_or. destruct first as [|c first]; [congruence|].
      destruct others; reflexivity. }
    rewrite Hjoin. apply includes_refl.
Qed.

Lemma X24_witness :
  includes "<td>None</td>" (Dashboard.action_row sample_action) = true
  /\ includes "<td>Buy, Sell</td>"
       (Dashboard.action_row
          {| action_name := "Trade"; linkedEvents := ["Buy"; "Sell"] |}) = true.
Proof.
  split.
  - exact (proj1 (X24_action_row_linked_events_cell sample_action) eq_refl).
  - refine (proj2 (X24_action_row_linked_events_cell
                     {| action_name := "Trade";
                        linkedEvents := ["Buy"; "Sell"] |})
                  "Buy" ["Sell"] eq_refl _).
    discriminate.
Defined.

(** X25. Log levels in the incremental renderer: an entry without
    [event_type] is drawn with the class [text-secondary] and the literal
    word "undefined" as its level; an entry of level INFO, WARNING, ERROR
    or SUCCESS is drawn with the class [text-info], [text-warning],
    [text-danger] or [text-success] and its own name as the level; the
    message follows the level after one space. *)
Theorem X25_log_level_rendering :
  forall (fmt : jsval -> string) (log : LogEntry),
    let level := fun class name : string =>
      ("<span class=" ++ dq ++ class ++ dq ++ ">" ++ name ++ "</span> "
       ++ event_data log)%string in
    (event_type log = None ->
     includes (level "text-secondary" "undefined")
              (Incremental.createLogEntry fmt log) = true)
    /\ (event_type log = Some INFO ->
        includes (level "text-info" "INFO")
                 (Incremental.createLogEntry fmt log) = true)
    /\ (event_type log = Some WARNING ->
        includes (level "text-warning" "WARNING")
                 (Incremental.createLogEntry fmt log) = true)
    /\ (event_type log = Some ERROR ->
        includes (level "text-danger" "ERROR")
                 (Incremental.createLogEntry fmt log) = true)
    /\ (event_type log = Some SUCCESS ->
        includes (level "text-success" "SUCCESS")
                 (Incremental.createLogEntry fmt log) = true)
    /\ (forall l1 l2 : LogLevel,
           Incremental.levelColor (Some l1) = Incremental.levelColor (Some l2) ->
           l1 = l2)
    /\ (forall l : LogLevel,
           Incremental.levelColor (Some l) <> Incremental.levelColor None).
Proof.
  intros fmt log. cbv zeta.
  assert (Hdrawn : forall (l : option LogLevel) (expected : string),
             event_type log = l ->
             expected = (Incremental.formatLogLevel l ++ " " ++ event_data log)%string ->
             includes expected (Incremental.createLogEntry fmt log) = true).
  { intros l expected Hl ->. unfold Incremental.createLogEntry. rewrite Hl.
    do 7 apply includes_skip. apply includes_line, includes_refl. }
  repeat split.
  - intros H. apply (Hdrawn None); [exact H | reflexivity].
  - intros H. apply (Hdrawn (Some INFO)); [exact H | reflexivity].
  - intros H. apply (Hdrawn (Some WARNING)); [exact H | reflexivity].
  - intros H. apply (Hdrawn (Some ERROR)); [exact H | reflexivity].
  - intros H. apply (Hdrawn (Some SUCCESS)); [exact H | reflexivity].
  - destruct l1, l2; intros H; try reflexivity; discriminate H.
  - destruct l; intros H; discriminate H.
Qed.

Lemma X25_witness :
  includes ("<span class=" ++ dq ++ "text-secondary" ++ dq ++
            ">undefined</span> " ++ "fired")%string
    (Incremental.createLogEntry sample_locale sample_log) = true.
Proof.
  exact (proj1 (X25_log_level_rendering sample_locale sample_log) eq_refl).
Defined.
